(** * Exchron/archive: the light-curve download runner and the label
    standardisation script

    A shallow embedding of [get-lightcurve-data/get_lightkurve_data.py]
    (the worker [download_lightkurve_data] and the resume-aware runner
    [main]), of the per-file transaction of
    [classroom/classroom-data-processing/standardize_dispositions.py] and
    of [load_koi_data] of [playground-data-processing/train_test_split.py].

    Python code that touches the disk, the console or the remote archive
    becomes a computation in a state-and-exception monad over an explicit
    store; third-party calls ([lightkurve], [pandas] readers and writers)
    are fields of a record of oracles that may return or raise, and so
    are, for the standardisation script, the disk under a copy or a
    rewrite and the console under a [print]. A file is held as the text
    its bytes decode to. *)

From stdpp Require Import gmap strings list pretty.
From Stdlib Require Import Ascii.

Local Open Scope string_scope.
Local Open Scope list_scope.

(** ** Python values, strings and exceptions *)

Module Py.

(** A table cell as [pandas] hands it to Python: an integer, a text or
    the missing value. *)
Inductive value : Type :=
| Int (z : Z)
| Str (s : string)
| NaN.

Global Instance value_eq_dec : EqDecision value.
Proof. solve_decision. Defined.

(** [str(v)] *)
Definition str (v : value) : string :=
  match v with
  | Int z => pretty z
  | Str s => s
  | NaN => "nan"
  end.

(** [c.isspace()] for a code point below 256. *)
Definition isspace (c : ascii) : bool :=
  let n := nat_of_ascii c in
  (((9 <=? n) && (n <=? 13)) || ((28 <=? n) && (n <=? 32))
   || (n =? 133) || (n =? 160))%nat.

Fixpoint lstrip (s : string) : string :=
  match s with
  | String c s' => if isspace c then lstrip s' else s
  | EmptyString => EmptyString
  end.

(** [s.strip()] *)
Definition strip (s : string) : string :=
  String.rev (lstrip (String.rev (lstrip s))).

Fixpoint drop (n : nat) (s : string) : string :=
  match n, s with
  | S n', String _ s' => drop n' s'
  | _, _ => s
  end.

(** [s.replace(old, new)] for a non-empty [old]: every occurrence, left
    to right, without overlap. [skip] counts the characters of a match
    still to be passed over. *)
Fixpoint replace_from (skip : nat) (old new s : string) : string :=
  match s with
  | EmptyString => EmptyString
  | String c s' =>
      match skip with
      | S k => replace_from k old new s'
      | O =>
          if String.prefix old s
          then new +:+ replace_from (String.length old - 1) old new s'
          else String c (replace_from 0 old new s')
      end
  end.

Fixpoint intersperse (new s : string) : string :=
  match s with
  | EmptyString => new
  | String c s' => new +:+ String c (intersperse new s')
  end.

Definition replace (old new s : string) : string :=
  match old with
  | EmptyString => intersperse new s
  | _ => replace_from 0 old new s
  end.

(** What a file opened in text mode hands over for its content: with the
    default [newline=None] a carriage return followed by a line feed, and
    a carriage return on its own, are both read as one line feed. *)
Fixpoint universal_newlines (s : string) : string :=
  match s with
  | String c s' =>
      if decide (c = "013"%char) then
        String "010"
          match s' with
          | String c' s'' =>
              if decide (c' = "010"%char) then universal_newlines s''
              else universal_newlines s'
          | EmptyString => EmptyString
          end
      else String c (universal_newlines s')
  | EmptyString => EmptyString
  end.

(** [c.isprintable()] for a code point below 256. *)
Definition isprintable (c : ascii) : bool :=
  let n := nat_of_ascii c in
  negb ((n <? 32) || ((127 <=? n) && (n <=? 160)) || (n =? 173))%nat.

Definition hex_digit (n : nat) : ascii :=
  ascii_of_nat (if (n <? 10)%nat then 48 + n else 87 + n).

(** One character of [repr(s)] between quotes [q]. *)
Definition repr_char (q c : ascii) : string :=
  let n := nat_of_ascii c in
  if decide (c = q) then String "092" (String c "")
  else if decide (c = "092"%char) then String "092" (String "092" "")
  else if decide (c = "009"%char) then String "092" "t"
  else if decide (c = "010"%char) then String "092" "n"
  else if decide (c = "013"%char) then String "092" "r"
  else if isprintable c then String c ""
  else String "092"
         (String "x"
            (String (hex_digit (Nat.div n 16))
               (String (hex_digit (Nat.modulo n 16)) ""))).

Fixpoint repr_from (q : ascii) (s : string) : string :=
  match s with
  | String c s' => repr_char q c +:+ repr_from q s'
  | EmptyString => String q ""
  end.

Fixpoint contains (c : ascii) (s : string) : bool :=
  match s with
  | String c' s' => (if decide (c' = c) then true else false) || contains c s'
  | EmptyString => false
  end.

(** [repr(s)]: single quotes, unless the text holds a single quote and no
    double quote. *)
Definition repr (s : string) : string :=
  let q := if contains "'" s && negb (contains "034" s)
           then "034"%char else "'"%char in
  String q (repr_from q s).

(** An instance of [Exception]: its class name and [str(e)]. *)
Record exn : Type := Exception { exn_class : string; exn_message : string }.

(** What [open], [shutil] and [pandas] raise for a path that is not
    there. *)
Definition file_not_found (p : string) : exn :=
  Exception "FileNotFoundError"
    ("[Errno 2] No such file or directory: " +:+ repr p).

(** What a call does: return a value or raise. *)
Inductive outcome (A : Type) : Type :=
| Ret (a : A)
| Raise (e : exn).
Global Arguments Ret {A} a.
Global Arguments Raise {A} e.

End Py.

Module OsPath.

Definition endswith_sep (s : string) : bool :=
  match String.rev s with
  | String c _ => if decide (c = "/"%char) then true else false
  | EmptyString => false
  end.

(** [os.path.join(a, b)] (POSIX). *)
Definition join (a b : string) : string :=
  if String.prefix "/" b then b
  else if decide (a = "") then b
  else if endswith_sep a then a +:+ b
  else a +:+ "/" +:+ b.

Fixpoint basename_from (cur s : string) : string :=
  match s with
  | EmptyString => cur
  | String c s' =>
      if decide (c = "/"%char) then basename_from "" s'
      else basename_from (cur +:+ String c "") s'
  end.

(** [os.path.basename(p)]: what follows the last separator. *)
Definition basename (p : string) : string := basename_from "" p.

End OsPath.

(** ** Tables *)

Module Pandas.

(** A data frame: its columns in order, each with its cells. *)
Record DataFrame : Type :=
  { nrows : nat; columns : list (string * list Py.value) }.

Definition column_names (df : DataFrame) : list string := (columns df).*1.

Fixpoint assoc_set {A} (k : string) (v : A) (l : list (string * A))
  : list (string * A) :=
  match l with
  | [] => [(k, v)]
  | (k', v') :: l' =>
      if decide (k' = k) then (k, v) :: l' else (k', v') :: assoc_set k v l'
  end.

Fixpoint assoc_get {A} (k : string) (l : list (string * A)) : option A :=
  match l with
  | [] => None
  | (k', v) :: l' => if decide (k' = k) then Some v else assoc_get k l'
  end.

(** [df[name] = cells] *)
Definition set_column (name : string) (cells : list Py.value)
    (df : DataFrame) : DataFrame :=
  {| nrows := nrows df; columns := assoc_set name cells (columns df) |}.

(** [df[name] = v] with a scalar [v] *)
Definition set_scalar (name : string) (v : Py.value) (df : DataFrame)
  : DataFrame :=
  set_column name (replicate (nrows df) v) df.

(** [df[name]]: raises [KeyError] when the column is absent. *)
Definition get_column (name : string) (df : DataFrame)
  : Py.outcome (list Py.value) :=
  match assoc_get name (columns df) with
  | Some cells => Py.Ret cells
  | None => Py.Raise (Py.Exception "KeyError" ("'" +:+ name +:+ "'"))
  end.

End Pandas.

Import Py Pandas.

(** ** The runner's data *)

(** The dict every worker returns and every summary row holds. *)
Record FetchResult : Type :=
  { kepler_id : Py.value;
    success : bool;
    output_file : option string;
    status : string }.

Global Instance FetchResult_eq_dec : EqDecision FetchResult.
Proof. solve_decision. Defined.

(** The summary file as [pd.read_csv] sees it. *)
Inductive summary_content : Type :=
| Rows (rows : list FetchResult)
| Unparsable.

(** What a run does to the outside, in order. Progress lines that no
    property depends on are not recorded. *)
Inductive event : Type :=
| EvPrint (line : string)
| EvPrintList (label : string) (items : list string)
| EvInput (prompt : string)
| EvSubmit (kid : string)
| EvSearch (term : string)
| EvDownload
| EvWriteArtifact (path : string)
| EvWriteSummary (rows : list FetchResult)
| EvCopy (src dst : string)
| EvRewrite (path : string).

(** The store: text files by path, the summary file (no artifact path
    coincides with [summary_file], so it is kept apart, with its table
    parsed), the lines waiting on standard input, and the trace. *)
Record state : Type :=
  { files : gmap string string;
    summary : option summary_content;
    stdin : list string;
    trace : list event }.

(** The outcome of [df.to_csv(path)]: the text lands on disk, or the call
    raises and leaves nothing or some debris at the path. *)
Inductive write_result : Type :=
| Written
| WriteFailed (e : exn) (debris : option string).

(** The third-party archive client and table library, as oracles. *)
Record Lightkurve : Type :=
  { hit : Type;
    curve : Type;
    search_lightcurve : string → outcome (list hit);
    download : hit → outcome curve;
    to_pandas : curve → outcome DataFrame;
    to_csv : DataFrame → string;
    disk_write : string → string → write_result }.

(** ** The monad *)

Definition M (A : Type) : Type := state → outcome A * state.

Definition ret {A} (a : A) : M A := λ st, (Ret a, st).
Definition raise {A} (e : exn) : M A := λ st, (Raise e, st).
Definition bind {A B} (m : M A) (k : A → M B) : M B :=
  λ st, match m st with
        | (Ret a, st') => k a st'
        | (Raise e, st') => (Raise e, st')
        end.

Notation "x <- m ;; k" := (bind m (λ x, k))
  (at level 100, m at next level, right associativity).
Notation "m ;;; k" := (bind m (λ _, k))
  (at level 100, right associativity).

(** [try: body except Exception as e: handler(e)] *)
Definition try_except {A} (body : M A) (handler : exn → M A) : M A :=
  λ st, match body st with
        | (Ret a, st') => (Ret a, st')
        | (Raise e, st') => handler e st'
        end.

Definition lift {A} (o : outcome A) : M A := λ st, (o, st).

Definition emit (ev : event) : M unit :=
  λ st, (Ret tt, {| files := files st; summary := summary st;
                    stdin := stdin st; trace := (trace st ++ [ev])%list |}).

Definition set_files (fs : gmap string string) (st : state) : state :=
  {| files := fs; summary := summary st; stdin := stdin st;
     trace := trace st |}.

(** [os.path.exists(path)] for an artifact or data file. *)
Definition path_exists (path : string) : M bool :=
  λ st, (Ret (bool_decide (is_Some (files st !! path))), st).

(** ** The worker *)

Section Worker.

Variable lk : Lightkurve.

Definition lk_search (term : string) : M (list (hit lk)) :=
  emit (EvSearch term) ;;; lift (search_lightcurve lk term).

Definition lk_download (h : hit lk) : M (curve lk) :=
  emit EvDownload ;;; lift (download lk h).

(** [df.to_csv(path, index=False)] *)
Definition df_to_csv (df : DataFrame) (path : string) : M unit :=
  emit (EvWriteArtifact path) ;;;
  λ st, match disk_write lk path (to_csv lk df) with
        | Written =>
            (Ret tt, set_files (<[path := to_csv lk df]> (files st)) st)
        | WriteFailed e None => (Raise e, st)
        | WriteFailed e (Some junk) =>
            (Raise e, set_files (<[path := junk]> (files st)) st)
        end.

Definition artifact_name (kid : string) : string :=
  "kepler_" +:+ kid +:+ "_lightkurve.csv".

Definition error_result (kepler_id_clean : string) (e : exn) : FetchResult :=
  {| kepler_id := Str kepler_id_clean;
     success := false;
     output_file := None;
     status := "Error: " +:+ exn_message e |}.

(** Lines 29-68: the body of the [try], after the two assignments. *)
Definition try_block (kepler_id_clean output_file : string) : M FetchResult :=
  found <- path_exists output_file ;;
  if found : bool then
    ret {| kepler_id := Str kepler_id_clean;
           success := true;
           output_file := Some output_file;
           status := "Skipped (already exists)" |}
  else
    let search_term := "KIC " +:+ kepler_id_clean in
    search_result <- lk_search search_term ;;
    match search_result with
    | first :: _ =>
        lc <- lk_download first ;;
        df <- lift (to_pandas lk lc) ;;
        let df := set_scalar "kepler_id" (Str kepler_id_clean) df in
        df_to_csv df output_file ;;;
        ret {| kepler_id := Str kepler_id_clean;
               success := true;
               output_file := Some output_file;
               status := "Downloaded" |}
    | [] =>
        ret {| kepler_id := Str kepler_id_clean;
               success := false;
               output_file := None;
               status := "No light curve found" |}
    end.

(** Lines 24-76. [str(kepler_id).strip()] and [os.path.join] cannot
    raise on a cell value, so [kepler_id_clean] is bound when the
    handler runs. *)
Definition download_lightkurve_data (kepler_id : Py.value)
    (output_dir : string) : M FetchResult :=
  let kepler_id_clean := Py.strip (Py.str kepler_id) in
  let output_file := OsPath.join output_dir (artifact_name kepler_id_clean) in
  try_except
    (try_block kepler_id_clean output_file)
    (λ e, ret (error_result kepler_id_clean e)).

End Worker.

(** ** The runner *)

(** What surrounds a run: the archive client, the input table as
    [pd.read_csv(input_file)] yields it, and the order in which the pool's
    futures complete ([next_done pending] is the position, among the
    futures still pending, of the one that completes next). *)
Record Env : Type :=
  { client : Lightkurve;
    read_input : outcome DataFrame;
    next_done : list string → nat }.

Definition output_dir : string := "lightkurve_data".
Definition summary_file : string :=
  OsPath.join output_dir "kepler_lightkurve_summary.csv".
Definition max_workers : nat := 20.
Definition save_interval : nat := 50.
Definition limit : option nat := None.

(** [input(prompt)]: the next line of standard input, [EOFError] at its
    end. *)
Definition input (prompt : string) : M string :=
  emit (EvInput prompt) ;;;
  λ st, match stdin st with
        | line :: rest =>
            (Ret line, {| files := files st; summary := summary st;
                          stdin := rest; trace := trace st |})
        | [] => (Raise (Exception "EOFError" "EOF when reading a line"), st)
        end.

(** Lines 93-103: the identifier column, or [None] when the run is to
    exit. *)
Definition resolve_column (df_input : DataFrame) : M (option string) :=
  let koi_column := "kepid" in
  if bool_decide (koi_column ∈ column_names df_input) then
    emit (EvPrint ("Using column '" +:+ koi_column +:+ "' for Kepler IDs")) ;;;
    ret (Some koi_column)
  else
    emit (EvPrint ("Column '" +:+ koi_column
                   +:+ "' not found in the input CSV.")) ;;;
    emit (EvPrintList "Available columns:" (column_names df_input)) ;;;
    koi_column <- input "Please enter the column name containing Kepler IDs: " ;;
    if bool_decide (koi_column ∈ column_names df_input) then
      emit (EvPrint ("Using column '" +:+ koi_column
                     +:+ "' for Kepler IDs")) ;;;
      ret (Some koi_column)
    else
      emit (EvPrint ("Column '" +:+ koi_column +:+ "' not found. Exiting.")) ;;;
      ret None.

(** [pd.read_csv(summary_file)] followed by [to_dict('records')]. *)
Definition read_summary (c : summary_content) : M (list FetchResult) :=
  match c with
  | Rows rows => ret rows
  | Unparsable =>
      raise (Exception "ParserError" "Error tokenizing data")
  end.

(** Lines 105-113. The bare [except:] swallows whatever the read raises. *)
Definition load_existing_results : M (list FetchResult) :=
  λ st, match summary st with
        | Some c => try_except (read_summary c) (λ _, ret []) st
        | None => (Ret [], st)
        end.

(** Lines 118-128: the identifiers left after the summary pass, and the
    initial result list. *)
Definition summary_pass (existing_results : list FetchResult)
    (all_kepler_ids : list string) : list string * list FetchResult :=
  match existing_results with
  | _ :: _ =>
      let processed_ids : gset string :=
        list_to_set ((λ result, Py.str (kepler_id result)) <$> existing_results) in
      (filter (λ kid, Py.str (Str kid) ∉ processed_ids) all_kepler_ids,
       existing_results)
  | [] => (all_kepler_ids, [])
  end.

(** [os.path.basename(f).replace("kepler_", "").replace("_lightkurve.csv", "")] *)
Definition id_of_file (file_path : string) : string :=
  Py.replace "_lightkurve.csv" ""
    (Py.replace "kepler_" "" (OsPath.basename file_path)).

Definition found_existing (file_path : string) : FetchResult :=
  {| kepler_id := Str (id_of_file file_path);
     success := true;
     output_file := Some file_path;
     status := "Found existing file" |}.

(** Lines 130-149: the on-disk pass. *)
Definition file_pass (fs : gmap string string) (kepler_ids : list string)
    (results : list FetchResult) : list string * list FetchResult :=
  let files_to_check : list string :=
    (λ kid, OsPath.join output_dir (artifact_name kid)) <$> kepler_ids in
  let existing_files := filter (λ f, is_Some (fs !! f)) files_to_check in
  match existing_files with
  | _ :: _ =>
      let results := (results ++ (found_existing <$> existing_files))%list in
      let processed_file_ids : gset string :=
        list_to_set (id_of_file <$> existing_files) in
      (filter (λ kid, kid ∉ processed_file_ids) kepler_ids, results)
  | [] => (kepler_ids, results)
  end.

(** Lines 152-155: [if limit: kepler_ids = kepler_ids[:limit]]. *)
Definition apply_limit (lim : option nat) (kepler_ids : list string)
  : list string :=
  match lim with
  | Some (S n) => take (S n) kepler_ids
  | _ => kepler_ids
  end.

(** [summary_df.to_csv(summary_file, index=False)]: the whole table
    replaces what the file held. *)
Definition write_summary (rows : list FetchResult) : M unit :=
  λ st, (Ret tt, {| files := files st; summary := Some (Rows rows);
                    stdin := stdin st;
                    trace := (trace st ++ [EvWriteSummary rows])%list |}).

(** The builder: lines 105-155, from the identifier column on. *)
Definition build_work_list (all_kepler_ids : list string)
  : M (list string * list FetchResult) :=
  existing_results <- load_existing_results ;;
  let '(kepler_ids, results) := summary_pass existing_results all_kepler_ids in
  λ st,
    let '(kepler_ids, results) := file_pass (files st) kepler_ids results in
    (Ret (apply_limit limit kepler_ids, results), st).

Section Dispatcher.

Variable env : Env.

(** [concurrent.futures.as_completed]: the submitted identifiers in the
    order their futures complete. *)
Fixpoint as_completed_from (n : nat) (pending : list string) : list string :=
  match n with
  | S n' =>
      let i := next_done env pending `mod` length pending in
      match pending !! i with
      | Some kid => kid :: as_completed_from n' (delete i pending)
      | None => []
      end
  | O => []
  end.

Definition as_completed (submitted : list string) : list string :=
  as_completed_from (length submitted) submitted.

(** What a future holds once its worker has run. The worker's effects on
    the store are applied when its future completes: a worker reads and
    writes its own artifact path only. *)
Definition run_future (kid : string) : M (outcome FetchResult) :=
  λ st, let '(o, st') :=
          download_lightkurve_data (client env) (Str kid) output_dir st in
        (Ret o, st').

(** Lines 174-183: [future.result()], or the fallback row when it
    raises. *)
Definition result_or_fallback (kid : string) (o : outcome FetchResult)
  : FetchResult :=
  match o with
  | Ret result => result
  | Raise exc =>
      {| kepler_id := Str kid;
         success := false;
         output_file := None;
         status := "Exception: " +:+ exn_message exc |}
  end.

(** Lines 186-190: [completed_count % interval == 0], then the
    checkpoint. [main] runs with 50; the properties below take a positive
    interval. *)
Definition checkpoint (interval completed_count : nat)
    (results : list FetchResult) : M unit :=
  match interval with
  | O => raise (Exception "ZeroDivisionError"
                  "integer division or modulo by zero")
  | _ =>
      if (completed_count `mod` interval =? 0)%nat
      then write_summary results
      else ret tt
  end.

(** The body of the [for future in as_completed(...)] loop, folded over
    the completion order. *)
Fixpoint collect (interval : nat) (order : list string)
    (completed_count : nat) (results : list FetchResult)
  : M (list FetchResult) :=
  match order with
  | kid :: order' =>
      o <- run_future kid ;;
      let results := (results ++ [result_or_fallback kid o])%list in
      let completed_count := completed_count + 1 in
      checkpoint interval completed_count results ;;;
      collect interval order' completed_count results
  | [] => ret results
  end.

Fixpoint submit_all (kepler_ids : list string) : M unit :=
  match kepler_ids with
  | kid :: rest => emit (EvSubmit kid) ;;; submit_all rest
  | [] => ret tt
  end.

(** Lines 163-190. *)
Definition dispatch (interval : nat) (kepler_ids : list string)
    (results : list FetchResult) : M (list FetchResult) :=
  submit_all kepler_ids ;;;
  collect interval (as_completed kepler_ids) 0 results.

(** Lines 163-197: the pool, the final write of the summary, and
    [summary_df['success']], which raises on a frame built from no
    rows. *)
Definition dispatch_and_save (interval : nat) (kepler_ids : list string)
    (results : list FetchResult) : M unit :=
  results <- dispatch interval kepler_ids results ;;
  write_summary results ;;;
  match results with
  | [] => raise (Exception "KeyError" "'success'")
  | _ :: _ => ret tt
  end.

(** Lines 105-210, once the identifier column is settled. *)
Definition run_with_column (interval : nat) (df_input : DataFrame)
    (koi_column : string) : M unit :=
  cells <- lift (get_column koi_column df_input) ;;
  let all_kepler_ids := Py.str <$> cells in
  work <- build_work_list all_kepler_ids ;;
  dispatch_and_save interval work.1 work.2.

(** [main], with the checkpoint interval (its local [save_interval]) as
    a parameter. *)
Definition main_with (interval : nat) : M unit :=
  df_input <- lift (read_input env) ;;
  koi_column <- resolve_column df_input ;;
  match koi_column with
  | None => ret tt
  | Some koi_column => run_with_column interval df_input koi_column
  end.

Definition main : M unit := main_with save_interval.

End Dispatcher.

(** * The label standardisation script *)

Module Standardize.

(** One entry of [files_to_process]. *)
Record file_info : Type :=
  { path : string;
    name : string;
    column : string;
    skip_rows : nat;
    mapping : list (string * string) }.

Definition koi_mapping : list (string * string) :=
  [("CONFIRMED", "candidate"); ("CANDIDATE", "candidate");
   ("FALSE POSITIVE", "non-candidate")].

Definition k2_mapping : list (string * string) :=
  [("CONFIRMED", "candidate"); ("CANDIDATE", "candidate");
   ("FALSE POSITIVE", "non-candidate"); ("REFUTED", "non-candidate")].

Definition tess_mapping : list (string * string) :=
  [("FP", "non-candidate"); ("FA", "non-candidate"); ("PC", "candidate");
   ("CP", "candidate"); ("KP", "candidate"); ("APC", "candidate")].

Definition files_to_process (base_dir : string) : list file_info :=
  [ {| path := OsPath.join base_dir "KOI Selected Data.csv";
       name := "KOI Selected Data"; column := "koi_disposition";
       skip_rows := 33; mapping := koi_mapping |};
    {| path := OsPath.join (OsPath.join base_dir "classroom-data")
                 "KOI-Classroom-Data.csv";
       name := "KOI Classroom Data"; column := "koi_disposition";
       skip_rows := 0; mapping := koi_mapping |};
    {| path := OsPath.join base_dir "K2 Selected Data.csv";
       name := "K2 Selected Data"; column := "disposition";
       skip_rows := 35; mapping := k2_mapping |};
    {| path := OsPath.join (OsPath.join base_dir "classroom-data")
                 "K2-Classroom-Data.csv";
       name := "K2 Classroom Data"; column := "disposition";
       skip_rows := 0; mapping := k2_mapping |};
    {| path := OsPath.join (OsPath.join base_dir "classroom-data")
                 "TESS-Classroom-Data.csv";
       name := "TESS Classroom Data"; column := "tfopwg_disp";
       skip_rows := 0; mapping := tess_mapping |} ].

(** What surrounds the script: the table library on a file's content,
    the disk under a rewrite ([rewrite_outcome path text]) and under a
    copy ([copy_outcome src dst text], where [text] is what [src] holds),
    and the console under the [print] at a given line of the source while
    the file at a given path is handled ([console file_path line] is the
    exception the call raises, if any). *)
Record Tables : Type :=
  { read_csv : nat → string → outcome DataFrame;
    render_csv : DataFrame → string;
    rewrite_outcome : string → string → write_result;
    copy_outcome : string → string → string → write_result;
    console : string → nat → option exn }.

(** How the handling of one file ends, when it does not raise. *)
Inductive verdict : Type :=
| Updated
| Unmapped (count : nat)
| Failed (e : exn).

(** The content of the file at [p], as [pandas] and [shutil] find it on
    disk. *)
Definition read_file (p : string) : M string :=
  λ st, match files st !! p with
        | Some text => (Ret text, st)
        | None => (Raise (file_not_found p), st)
        end.

(** [open(p, 'r')] read to the end: text mode, with its line ends
    translated. *)
Definition read_text (p : string) : M string :=
  text <- read_file p ;;
  ret (Py.universal_newlines text).

(** The lines of a text read through [read_text], each with its line
    end, as iterating over the open file or [readlines()] yields them:
    after the translation of [read_text] a line ends at a line feed and
    nowhere else. *)
Fixpoint lines_from (cur s : string) : list string :=
  match s with
  | String c s' =>
      if decide (c = "010"%char)
      then (cur +:+ String c "") :: lines_from "" s'
      else lines_from (cur +:+ String c "") s'
  | EmptyString => match cur with EmptyString => [] | _ => [cur] end
  end.

Definition lines (s : string) : list string := lines_from "" s.

Fixpoint lstrip_newlines (s : string) : string :=
  match s with
  | String c s' => if decide (c = "010"%char) then lstrip_newlines s' else s
  | EmptyString => EmptyString
  end.

(** [line.rstrip('\n')] *)
Definition rstrip_newlines (s : string) : string :=
  String.rev (lstrip_newlines (String.rev s)).

Fixpoint concat_lines (ls : list string) : string :=
  match ls with
  | l :: ls' => l +:+ String "010" "" +:+ concat_lines ls'
  | [] => ""
  end.

(** [series.map(mapping)] with a dict: a cell that is no key of the dict
    becomes the missing value. *)
Definition map_cell (m : list (string * string)) (v : Py.value) : Py.value :=
  match v with
  | Str s => match assoc_get s m with Some t => Str t | None => NaN end
  | _ => NaN
  end.

Definition isna (v : Py.value) : bool :=
  match v with NaN => true | _ => false end.

Section Script.

Variable lib : Tables.
Variable timestamp : string.

Definition backup_path_of (file_path : string) : string :=
  file_path +:+ ".backup_" +:+ timestamp.

(** [shutil.copy2(src, dst)]: a missing source raises; otherwise the
    content of [src] lands at [dst], or the call raises and leaves [dst]
    as it was or with some debris (a copy cut short). The event records
    the attempt. *)
Definition copy2 (src dst : string) : M unit :=
  emit (EvCopy src dst) ;;;
  λ st, match files st !! src with
        | Some text =>
            match copy_outcome lib src dst text with
            | Written => (Ret tt, set_files (<[dst := text]> (files st)) st)
            | WriteFailed e None => (Raise e, st)
            | WriteFailed e (Some junk) =>
                (Raise e, set_files (<[dst := junk]> (files st)) st)
            end
        | None => (Raise (file_not_found src), st)
        end.

(** A write through [open(p, 'w')] or [to_csv(p)]: the text lands, or the
    call raises and leaves the file as it was or with some debris. *)
Definition write_text (p text : string) : M unit :=
  emit (EvRewrite p) ;;;
  λ st, match rewrite_outcome lib p text with
        | Written => (Ret tt, set_files (<[p := text]> (files st)) st)
        | WriteFailed e None => (Raise e, st)
        | WriteFailed e (Some junk) =>
            (Raise e, set_files (<[p := junk]> (files st)) st)
        end.

(** [print(...)] at line [line] of the source, while [file_path] is
    handled: the text goes to the console, or the call raises (a console
    that cannot encode the text, a closed pipe). What is printed is not
    recorded in the trace. *)
Definition print (file_path : string) (line : nat) : M unit :=
  match console lib file_path line with
  | None => ret tt
  | Some e => raise e
  end.

(** Lines 105-171: the body of the [try]. It returns [Unmapped] where the
    source runs [continue]. [pandas] reads the file off the disk itself;
    the comment lines are read through a file opened in text mode. *)
Definition try_body (file : file_info) : M verdict :=
  let file_path := path file in
  let backup_path := backup_path_of file_path in
  copy2 file_path backup_path ;;;
  print file_path 108 ;;;
  text <- read_file file_path ;;
  df <- lift (read_csv lib (skip_rows file) text) ;;
  print file_path 118 ;;;
  let disposition_col := column file in
  print file_path 122 ;;;
  cells <- lift (get_column disposition_col df) ;;
  print file_path 124 ;;;
  let df := set_column disposition_col (map_cell (mapping file) <$> cells) df in
  let unmapped := length (filter (λ v, isna v = true)
                            (map_cell (mapping file) <$> cells)) in
  if (0 <? unmapped)%nat then
    print file_path 132 ;;;
    print file_path 134 ;;;
    ret (Unmapped unmapped)
  else
    print file_path 138 ;;;
    print file_path 140 ;;;
    (match skip_rows file with
     | S _ =>
         original <- read_text
                       (Py.replace (".backup_" +:+ timestamp) "" (path file)) ;;
         let comment_lines :=
           rstrip_newlines <$> take (skip_rows file) (lines original) in
         write_text file_path (concat_lines comment_lines +:+ render_csv lib df)
     | O => write_text file_path (render_csv lib df)
     end) ;;;
    print file_path 165 ;;;
    written <- read_file file_path ;;
    verification_df <- lift (read_csv lib (skip_rows file) written) ;;
    lift (get_column disposition_col verification_df) ;;;
    print file_path 170 ;;;
    print file_path 171 ;;;
    ret Updated.

(** Lines 104-178 for one file that exists: the [try] and its handler.
    The handler runs outside any [try]: when its [print] or its copy
    raises, so does the handling of the file. *)
Definition process_file (file : file_info) : M verdict :=
  let file_path := path file in
  let backup_path := backup_path_of file_path in
  try_except (try_body file)
    (λ e,
       print file_path 174 ;;;
       found <- path_exists backup_path ;;
       (if found : bool
        then copy2 backup_path file_path ;;; print file_path 178
        else ret tt) ;;;
       ret (Failed e)).

(** Lines 94-178: the loop. An exception that leaves the handling of a
    file, or one of the loop's own [print] calls, leaves the loop. *)
Fixpoint process_all (todo : list file_info) : M (list (string * verdict)) :=
  match todo with
  | file :: rest =>
      found <- path_exists (path file) ;;
      if found : bool then
        print (path file) 101 ;;;
        print (path file) 102 ;;;
        v <- process_file file ;;
        vs <- process_all rest ;;
        ret ((name file, v) :: vs)
      else
        print (path file) 98 ;;;
        process_all rest
  | [] => ret []
  end.

Definition standardize_dispositions (base_dir : string)
  : M (list (string * verdict)) :=
  process_all (files_to_process base_dir).

End Script.

End Standardize.

(** * The train/test split script: loading the table *)

Module Playground.

(** [line.strip().startswith('#')] *)
Definition is_comment (line : string) : bool :=
  String.prefix "#" (Py.strip line).

(** Lines 21-25 of [train_test_split.py]: the position of the first line
    that is no comment, 0 when there is none. *)
Fixpoint header_line_index_from (i : nat) (lines : list string) : nat :=
  match lines with
  | line :: rest =>
      if is_comment line then header_line_index_from (S i) rest else i
  | [] => 0
  end.

Definition header_line_index (lines : list string) : nat :=
  header_line_index_from 0 lines.

(** [pd.read_csv(file_path, skiprows=n, comment='#')] on the content of
    the file. *)
Record Reader : Type :=
  { read_csv : nat → string → outcome DataFrame }.

(** [file.readlines()] on [open(file_path, 'r')] *)
Definition readlines (file_path : string) : M (list string) :=
  text <- Standardize.read_text file_path ;;
  ret (Standardize.lines text).

(** [load_koi_data(file_path)] *)
Definition load_koi_data (rd : Reader) (file_path : string) : M DataFrame :=
  lines <- readlines file_path ;;
  content <- Standardize.read_file file_path ;;
  lift (read_csv rd (header_line_index lines) content).

End Playground.

(** * The vocabulary of the properties *)

(** ** Rows, identifiers and paths *)

(** The path of the artifact the builder and the worker look for. *)
Definition artifact_path (kid : string) : string :=
  OsPath.join output_dir (artifact_name kid).

(** The row of the worker's short-circuit. *)
Definition skipped_result (kepler_id_clean output_file : string)
  : FetchResult :=
  {| kepler_id := Str kepler_id_clean;
     success := true;
     output_file := Some output_file;
     status := "Skipped (already exists)" |}.

(** The identifiers of a table of rows, as the builder reads them. *)
Definition summary_ids (rows : list FetchResult) : list string :=
  (λ result, Py.str (kepler_id result)) <$> rows.

Definition no_identifier_twice (rows : list FetchResult) : Prop :=
  NoDup (summary_ids rows).

(** An identifier that [strip] leaves alone and that is read back from
    the path of its artifact. *)
Definition clean_identifier (kid : string) : Prop :=
  Py.strip kid = kid ∧ id_of_file (artifact_path kid) = kid.

Definition is_digit (c : ascii) : bool :=
  let n := nat_of_ascii c in ((48 <=? n) && (n <=? 57))%nat.

(** A catalog number: decimal digits only. *)
Fixpoint all_digits (s : string) : bool :=
  match s with
  | String c s' => is_digit c && all_digits s'
  | EmptyString => true
  end.

Fixpoint no_sep (s : string) : bool :=
  match s with
  | String c s' => (if decide (c = "/"%char) then false else true) && no_sep s'
  | EmptyString => true
  end.

(** ** Traces *)

(** The store after [evs] has been appended to its trace. *)
Definition logged (evs : list event) (st : state) : state :=
  {| files := files st; summary := summary st; stdin := stdin st;
     trace := trace st ++ evs |}.

(** The tables written to the summary file, in order. *)
Fixpoint summary_writes (tr : list event) : list (list FetchResult) :=
  match tr with
  | EvWriteSummary rows :: tr' => rows :: summary_writes tr'
  | _ :: tr' => summary_writes tr'
  | [] => []
  end.

(** The events a worker can cause. *)
Definition worker_event (ev : event) : Prop :=
  match ev with
  | EvSearch _ | EvDownload | EvWriteArtifact _ => True
  | _ => False
  end.

(** What the run prints and asks when [kepid] is no column of the
    table. *)
Definition missing_column_report (df_input : DataFrame) : list event :=
  [ EvPrint "Column 'kepid' not found in the input CSV.";
    EvPrintList "Available columns:" (column_names df_input);
    EvInput "Please enter the column name containing Kepler IDs: " ].

Definition using_column (koi_column : string) : event :=
  EvPrint ("Using column '" +:+ koi_column +:+ "' for Kepler IDs").

(** ** Checkpoints *)

(** The completion counts, among [1..n], at which a checkpoint falls. *)
Definition checkpoint_counts (interval n : nat) : list nat :=
  filter (λ k, k `mod` interval = 0) (seq 1 n).

(** The tables a loop writes when it starts at count [c] with [results]
    and then collects [new], one row per completion. *)
Fixpoint checkpoint_rows (interval c : nat) (results new : list FetchResult)
  : list (list FetchResult) :=
  match new with
  | r :: new' =>
      (if ((c + 1) `mod` interval =? 0)%nat then [results ++ [r]] else [])
      ++ checkpoint_rows interval (c + 1) (results ++ [r]) new'
  | [] => []
  end.

(** ** Sample clients, tables and stores *)

(** An archive in which object 1 and object 757450 have a light curve,
    object 2 has none, and any other search fails. *)
Definition sample_client : Lightkurve :=
  {| hit := unit;
     curve := unit;
     search_lightcurve := λ term,
       if decide (term = "KIC 1") then Ret [tt]
       else if decide (term = "KIC 757450") then Ret [tt]
       else if decide (term = "KIC 2") then Ret []
       else Raise (Exception "HTTPError" "503 Service Unavailable");
     download := λ _, Ret tt;
     to_pandas := λ _,
       Ret {| nrows := 2;
              columns := [("time", [Int 0; Int 1]); ("flux", [Int 7; Int 9])] |};
     to_csv := λ df, "time,flux,kepler_id";
     disk_write := λ _ _, Written |}.

Definition empty_state : state :=
  {| files := ∅; summary := None; stdin := []; trace := [] |}.

(** A run over a table whose only column is [kepid]; the future
    submitted last completes first. *)
Definition sample_env (ids : list Py.value) : Env :=
  {| client := sample_client;
     read_input := Ret {| nrows := length ids; columns := [("kepid", ids)] |};
     next_done := λ pending, length pending - 1 |}.

Definition table_without_kepid : DataFrame :=
  {| nrows := 2;
     columns := [("kepoi_name", [Str "K00752.01"; Str "K00752.02"]);
                 ("koi_disposition", [Str "CONFIRMED"; Str "CANDIDATE"])] |}.

Definition env_without_kepid : Env :=
  {| client := sample_client;
     read_input := Ret table_without_kepid;
     next_done := λ _, 0 |}.

Definition classroom_table (text : string) : outcome DataFrame :=
  if decide (text = "koi_disposition,CONFIRMED")
  then Ret {| nrows := 1;
              columns := [("koi_disposition", [Str "CONFIRMED"])] |}
  else Raise (Exception "ParserError" "Error tokenizing data").

Definition no_space : exn :=
  Exception "OSError" "[Errno 28] No space left on device".

(** A disk that fills up during the rewrite of the classroom table; the
    copies go through. *)
Definition full_disk : Standardize.Tables :=
  {| Standardize.read_csv := λ _ text, classroom_table text;
     Standardize.render_csv := λ _, "koi_disposition,candidate";
     Standardize.rewrite_outcome := λ _ _, WriteFailed no_space (Some "koi_dis");
     Standardize.copy_outcome := λ _ _ _, Written;
     Standardize.console := λ _ _, None |}.

(** A disk that fills up during the backup copy of the classroom table
    and cuts it short; the copy of the short backup over the file goes
    through. *)
Definition disk_full_at_backup : Standardize.Tables :=
  {| Standardize.read_csv := λ _ text, classroom_table text;
     Standardize.render_csv := λ _, "koi_disposition,candidate";
     Standardize.rewrite_outcome := λ _ _, Written;
     Standardize.copy_outcome := λ src _ _,
       if decide (src = "classroom-data/KOI-Classroom-Data.csv")
       then WriteFailed no_space (Some "koi_dis")
       else Written;
     Standardize.console := λ _ _, None |}.

(** A disk that takes the backup copy, fills up during the rewrite and
    cuts short the copy of the backup over the file as well. *)
Definition disk_full_at_restore : Standardize.Tables :=
  {| Standardize.read_csv := λ _ text, classroom_table text;
     Standardize.render_csv := λ _, "koi_disposition,candidate";
     Standardize.rewrite_outcome := λ _ _, WriteFailed no_space (Some "koi_dis");
     Standardize.copy_outcome := λ src _ _,
       if decide (src = "classroom-data/KOI-Classroom-Data.csv")
       then Written
       else WriteFailed no_space (Some "koi");
     Standardize.console := λ _ _, None |}.

Definition cannot_encode (character : string) : exn :=
  Exception "UnicodeEncodeError"
    ("'charmap' codec can't encode character '" +:+ character
     +:+ "' in position 0: character maps to <undefined>").

(** A sound disk under a console whose encoding has neither the check
    mark of line 165 nor the ballot cross of line 174. *)
Definition narrow_console : Standardize.Tables :=
  {| Standardize.read_csv := λ _ text, classroom_table text;
     Standardize.render_csv := λ _, "koi_disposition,candidate";
     Standardize.rewrite_outcome := λ _ _, Written;
     Standardize.copy_outcome := λ _ _ _, Written;
     Standardize.console := λ _ line,
       if decide (line = 165) then Some (cannot_encode "\u2713")
       else if decide (line = 174) then Some (cannot_encode "\u2717")
       else None |}.

Definition classroom_file : Standardize.file_info :=
  {| Standardize.path := "classroom-data/KOI-Classroom-Data.csv";
     Standardize.name := "KOI Classroom Data";
     Standardize.column := "koi_disposition";
     Standardize.skip_rows := 0;
     Standardize.mapping := Standardize.koi_mapping |}.

(** ** Extended vocabulary *)

(** The rows a run starts from: what the summary file yields. *)
Definition prior_rows (st : state) : list FetchResult :=
  match summary st with Some (Rows rows) => rows | _ => [] end.

(** [s.rstrip()], by recursion on the text. *)
Fixpoint rstrip_spec (s : string) : string :=
  match s with
  | String c s' =>
      match rstrip_spec s' with
      | EmptyString => if Py.isspace c then EmptyString else String c EmptyString
      | r => String c r
      end
  | EmptyString => EmptyString
  end.

(** The row of a completed download. *)
Definition downloaded_result (kepler_id_clean output_file : string)
  : FetchResult :=
  {| kepler_id := Str kepler_id_clean;
     success := true;
     output_file := Some output_file;
     status := "Downloaded" |}.

(** An archive that answers every search, on a disk that fills up during
    the write of the artifact. *)
Definition flaky_disk_client : Lightkurve :=
  {| hit := unit;
     curve := unit;
     search_lightcurve := λ _, Ret [tt];
     download := λ _, Ret tt;
     to_pandas := λ _, Ret {| nrows := 1; columns := [("time", [Int 0])] |};
     to_csv := λ df, "time,kepler_id";
     disk_write := λ _ _,
       WriteFailed (Exception "OSError" "No space left on device")
         (Some "time,kep") |}.

(** The cells of a column that the mapping leaves without a label. *)
Definition unmapped_count (m : list (string * string))
    (cells : list Py.value) : nat :=
  length (filter (λ v, Standardize.isna v = true)
            (Standardize.map_cell m <$> cells)).

(** The text the script writes for a file whose content is [original]:
    the first [skip_rows] lines of the original as a text-mode read
    yields them, when there are rows to skip, then the table with its
    label column mapped. *)
Definition rewritten_text (lib : Standardize.Tables)
    (file : Standardize.file_info) (original : string) (df : DataFrame)
    (cells : list Py.value) : string :=
  let df' := set_column (Standardize.column file)
               (Standardize.map_cell (Standardize.mapping file) <$> cells) df in
  match Standardize.skip_rows file with
  | S _ =>
      Standardize.concat_lines
        (Standardize.rstrip_newlines
           <$> take (Standardize.skip_rows file)
                 (Standardize.lines (Py.universal_newlines original)))
      +:+ Standardize.render_csv lib df'
  | O => Standardize.render_csv lib df'
  end.

(** A line without line end in it: no line feed and no carriage return. *)
Fixpoint plain_line (s : string) : bool :=
  match s with
  | String c s' =>
      (if decide (c = "010"%char) then false
       else if decide (c = "013"%char) then false else true)
      && plain_line s'
  | EmptyString => true
  end.

(** A label the script writes. *)
Definition standard_label (v : Py.value) : Prop :=
  v = Str "candidate" ∨ v = Str "non-candidate".

(** A table library under which the rewrite of the classroom table goes
    through. *)
Definition sound_disk : Standardize.Tables :=
  {| Standardize.read_csv := λ _ text,
       if decide (text = "koi_disposition,CONFIRMED")
       then Ret {| nrows := 1;
                   columns := [("koi_disposition", [Str "CONFIRMED"])] |}
       else if decide (text = "koi_disposition,candidate")
       then Ret {| nrows := 1;
                   columns := [("koi_disposition", [Str "candidate"])] |}
       else Raise (Exception "ParserError" "Error tokenizing data");
     Standardize.render_csv := λ _, "koi_disposition,candidate";
     Standardize.rewrite_outcome := λ _ _, Written;
     Standardize.copy_outcome := λ _ _ _, Written;
     Standardize.console := λ _ _, None |}.

(** A reader that hands back a one-column frame holding the number of
    rows it was told to skip. *)
Definition echo_reader : Playground.Reader :=
  {| Playground.read_csv := λ n _,
       Ret {| nrows := 1; columns := [("skipped", [Int (Z.of_nat n)])] |} |}.

(** * Properties *)

(** ** Stepping through monadic code *)

Ltac unfold_m :=
  unfold bind, ret, raise, lift, emit, try_except, path_exists, set_files in *.

Ltac step_match :=
  match goal with
  | |- context [match ?x with _ => _ end] =>
      lazymatch x with
      | context [match _ with _ => _ end] => fail
      | _ => destruct x eqn:?
      end
  end.

Ltac run_m := unfold_m; simpl in *; repeat (step_match; simpl in *).

(** ** The worker *)

Section WorkerFacts.

Variable lk : Lightkurve.

Lemma try_block_returns id_clean path st r st' :
  try_block lk id_clean path st = (Ret r, st') →
  kepler_id r = Str id_clean
  ∧ (r = skipped_result id_clean path
     ∨ r = {| kepler_id := Str id_clean; success := true;
              output_file := Some path; status := "Downloaded" |}
     ∨ r = {| kepler_id := Str id_clean; success := false;
              output_file := None; status := "No light curve found" |}).
Proof.
  unfold try_block, lk_search, lk_download, df_to_csv, skipped_result.
  run_m; intros; simplify_eq; auto.
Qed.

Lemma download_returns kid dir st :
  ∃ r st', download_lightkurve_data lk kid dir st = (Ret r, st').
Proof.
  unfold download_lightkurve_data, try_except.
  destruct (try_block _ _ _ _) as [[r|e] st']; unfold ret; eauto.
Qed.

(** An existing artifact short-circuits the worker: nothing is
    searched, downloaded or written, and the store is left as it was. *)
Lemma worker_skips_existing kid dir st :
  let id_clean := Py.strip (Py.str kid) in
  let path := OsPath.join dir (artifact_name id_clean) in
  is_Some (files st !! path) →
  download_lightkurve_data lk kid dir st
  = (Ret (skipped_result id_clean path), st).
Proof.
  intros id_clean path Hex.
  unfold download_lightkurve_data, try_except, try_block.
  fold id_clean. fold path. unfold_m.
  rewrite (bool_decide_eq_true_2 _ Hex). reflexivity.
Qed.

(** A successful call leaves the artifact on disk. *)
Lemma worker_success_leaves_artifact kid dir st r st' :
  download_lightkurve_data lk kid dir st = (Ret r, st') →
  success r = true →
  is_Some (files st' !! OsPath.join dir (artifact_name (Py.strip (Py.str kid)))).
Proof.
  unfold download_lightkurve_data, try_block, lk_search, lk_download,
    df_to_csv, error_result.
  run_m; intros H Hs; simplify_eq; simpl in *; try discriminate.
  - by eapply bool_decide_eq_true_1.
  - rewrite lookup_insert_eq. eauto.
Qed.

End WorkerFacts.

(** C1. For every identifier, output directory and store, the worker
    returns one result and raises nothing; its status is never empty; and
    whenever the body of its [try] raises, the result reports failure with
    the status built from the exception. *)
Theorem C1_worker_contains_failures
    (lk : Lightkurve) (kid : Py.value) (dir : string) (st : state) :
  ∃ r st',
    download_lightkurve_data lk kid dir st = (Ret r, st')
    ∧ status r ≠ ""
    ∧ match try_block lk (Py.strip (Py.str kid))
              (OsPath.join dir (artifact_name (Py.strip (Py.str kid)))) st with
      | (Raise e, _) =>
          success r = false ∧ output_file r = None
          ∧ status r = "Error: " +:+ exn_message e
      | (Ret r', _) => r = r'
      end.
Proof.
  unfold download_lightkurve_data, try_except.
  destruct (try_block _ _ _ _) as [[r|e] st'] eqn:Hbody; unfold ret.
  - exists r, st'. split; [done|]. split; [|done].
    apply try_block_returns in Hbody as [_ [-> | [-> | ->] ] ]; done.
  - exists (error_result (Py.strip (Py.str kid)) e), st'.
    repeat split; done.
Qed.

(** C2 as the specification words it does not hold: the status of the
    short-circuit result is spelled with a capital S. *)
Lemma C2_status_literal_differs :
  let st := {| files := {[ "lightkurve_data/kepler_1_lightkurve.csv" := "time,flux" ]};
               summary := None; stdin := []; trace := [] |} in
  let r := {| kepler_id := Str "1"; success := true;
              output_file := Some "lightkurve_data/kepler_1_lightkurve.csv";
              status := "Skipped (already exists)" |} in
  download_lightkurve_data sample_client (Str "1") output_dir st = (Ret r, st)
  ∧ status r ≠ "skipped (already exists)".
Proof. split; [by vm_compute | discriminate]. Qed.

(** C2 (amended). For an identifier whose artifact file exists, the
    worker returns success with status "Skipped (already exists)", and
    leaves the store exactly as it found it: no search, no download, no
    write, the artifact's content untouched. *)
Theorem C2_worker_idempotent
    (lk : Lightkurve) (kid : Py.value) (dir : string) (st : state) :
  let id_clean := Py.strip (Py.str kid) in
  let path := OsPath.join dir (artifact_name id_clean) in
  is_Some (files st !! path) →
  download_lightkurve_data lk kid dir st
  = (Ret {| kepler_id := Str id_clean; success := true;
            output_file := Some path;
            status := "Skipped (already exists)" |}, st).
Proof. apply worker_skips_existing. Qed.

Lemma C2_worker_idempotent_witness :
  let st := {| files := {[ "lightkurve_data/kepler_1_lightkurve.csv" := "time,flux" ]};
               summary := None; stdin := []; trace := [] |} in
  download_lightkurve_data sample_client (Str " 1") output_dir st
  = (Ret {| kepler_id := Str "1"; success := true;
            output_file := Some "lightkurve_data/kepler_1_lightkurve.csv";
            status := "Skipped (already exists)" |}, st).
Proof.
  intros st.
  apply (C2_worker_idempotent sample_client (Str " 1") output_dir st).
  vm_compute. eauto.
Defined.

(** Two calls in a row: when the first succeeds, the second is the
    short-circuit and changes nothing. *)
Lemma worker_twice (lk : Lightkurve) kid dir st r1 st1 :
  download_lightkurve_data lk kid dir st = (Ret r1, st1) →
  success r1 = true →
  ∃ r2, download_lightkurve_data lk kid dir st1 = (Ret r2, st1)
        ∧ success r2 = true ∧ status r2 = "Skipped (already exists)".
Proof.
  intros H1 Hs.
  exists (skipped_result (Py.strip (Py.str kid))
            (OsPath.join dir (artifact_name (Py.strip (Py.str kid))))).
  split; [|done].
  apply worker_skips_existing. eapply worker_success_leaves_artifact; eauto.
Qed.

(** The failure modes one by one: nothing found, the search raising, and
    the write of the artifact raising half-way. *)
Lemma worker_reports_not_found (lk : Lightkurve) kid dir st :
  let id_clean := Py.strip (Py.str kid) in
  files st !! OsPath.join dir (artifact_name id_clean) = None →
  search_lightcurve lk ("KIC " +:+ id_clean) = Ret [] →
  download_lightkurve_data lk kid dir st
  = (Ret {| kepler_id := Str id_clean; success := false;
            output_file := None; status := "No light curve found" |},
     logged [EvSearch ("KIC " +:+ id_clean)] st).
Proof.
  intros id_clean Hfile Hsearch.
  unfold download_lightkurve_data, try_except, try_block, lk_search.
  fold id_clean. unfold_m. rewrite Hfile. simpl. by rewrite Hsearch.
Qed.

Lemma worker_reports_search_error (lk : Lightkurve) kid dir st e :
  let id_clean := Py.strip (Py.str kid) in
  files st !! OsPath.join dir (artifact_name id_clean) = None →
  search_lightcurve lk ("KIC " +:+ id_clean) = Raise e →
  download_lightkurve_data lk kid dir st
  = (Ret {| kepler_id := Str id_clean; success := false;
            output_file := None; status := "Error: " +:+ exn_message e |},
     logged [EvSearch ("KIC " +:+ id_clean)] st).
Proof.
  intros id_clean Hfile Hsearch.
  unfold download_lightkurve_data, try_except, try_block, lk_search.
  fold id_clean. unfold_m. rewrite Hfile. simpl. by rewrite Hsearch.
Qed.

Lemma worker_reports_write_error (lk : Lightkurve) kid dir st first rest lc df
    e junk :
  let id_clean := Py.strip (Py.str kid) in
  let path := OsPath.join dir (artifact_name id_clean) in
  let df' := set_scalar "kepler_id" (Str id_clean) df in
  files st !! path = None →
  search_lightcurve lk ("KIC " +:+ id_clean) = Ret (first :: rest) →
  download lk first = Ret lc →
  to_pandas lk lc = Ret df →
  disk_write lk path (to_csv lk df') = WriteFailed e (Some junk) →
  download_lightkurve_data lk kid dir st
  = (Ret {| kepler_id := Str id_clean; success := false;
            output_file := None; status := "Error: " +:+ exn_message e |},
     set_files (<[path := junk]> (files st))
       (logged [EvSearch ("KIC " +:+ id_clean); EvDownload;
                EvWriteArtifact path] st)).
Proof.
  intros id_clean path df' Hfile Hsearch Hdown Hpandas Hwrite.
  unfold download_lightkurve_data, try_except, try_block, lk_search,
    lk_download, df_to_csv.
  fold id_clean. fold path. unfold_m. rewrite Hfile. simpl.
  rewrite Hsearch. simpl. rewrite Hdown. simpl. rewrite Hpandas. simpl.
  fold df'. rewrite Hwrite. unfold error_result, logged. simpl.
  by rewrite <- !app_assoc.
Qed.

(** C9. Every row the worker returns, and the row the dispatcher makes up
    when a future raises, has [success] true exactly when [output_file] is
    not [None]. *)
Theorem C9_success_iff_output_file
    (lk : Lightkurve) (kid : Py.value) (dir : string) (st : state)
    (submitted : string) (exc : exn) :
  ∃ r st',
    download_lightkurve_data lk kid dir st = (Ret r, st')
    ∧ (success r = true ↔ output_file r ≠ None)
    ∧ (success (result_or_fallback submitted (Raise exc)) = true
       ↔ output_file (result_or_fallback submitted (Raise exc)) ≠ None).
Proof.
  unfold download_lightkurve_data, try_except.
  destruct (try_block _ _ _ _) as [[r|e] st'] eqn:Hbody; unfold ret.
  - exists r, st'. split; [done|].
    apply try_block_returns in Hbody as [_ [-> | [-> | ->] ] ];
      simpl; split; (split; [done|by intros []]) || (split; done).
  - eexists _, st'. split; [done|]. simpl. split; split; done.
Qed.

(** ** What a worker leaves behind *)

Lemma summary_writes_app tr1 tr2 :
  summary_writes (tr1 ++ tr2) = summary_writes tr1 ++ summary_writes tr2.
Proof.
  induction tr1 as [|ev tr1 IH]; [done|].
  destruct ev; simpl; by rewrite ?IH.
Qed.

Lemma worker_events_no_summary evs :
  Forall worker_event evs → summary_writes evs = [].
Proof.
  induction 1 as [|ev evs Hev _ IH]; [done|]. by destruct ev.
Qed.

Lemma worker_frame (lk : Lightkurve) kid dir st o st' :
  download_lightkurve_data lk kid dir st = (o, st') →
  summary st' = summary st ∧ stdin st' = stdin st
  ∧ ∃ evs, trace st' = trace st ++ evs ∧ Forall worker_event evs.
Proof.
  unfold download_lightkurve_data, try_block, lk_search, lk_download,
    df_to_csv, error_result.
  run_m; intros; simplify_eq; simpl;
    repeat split; try done;
    first [ by exists []; rewrite app_nil_r
          | rewrite <- ?app_assoc; eexists; split; [done|];
            repeat constructor ].
Qed.

(** ** The dispatcher *)

Lemma checkpoint_rows_shift interval c results new :
  checkpoint_rows interval c results new
  = (λ k, take (length results + k) (results ++ new))
    <$> filter (λ k, (c + k) `mod` interval = 0) (seq 1 (length new)).
Proof.
  revert c results. induction new as [|r new IH]; intros c results; [done|].
  cbn [checkpoint_rows length]. rewrite IH. clear IH.
  change (seq 1 (S (length new))) with (1 :: seq 2 (length new)).
  rewrite <- (fmap_S_seq 1), filter_cons.
  assert (Hhead : take (length results + 1) (results ++ r :: new)
                  = results ++ [r]).
  { rewrite (cons_middle r), app_assoc.
    rewrite take_app_length'; [done|]. rewrite length_app. simpl. lia. }
  assert (Htail :
    (λ k, take (length (results ++ [r]) + k) ((results ++ [r]) ++ new))
      <$> filter (λ k, (c + 1 + k) `mod` interval = 0) (seq 1 (length new))
    = (λ k, take (length results + k) (results ++ r :: new))
      <$> filter (λ k, (c + k) `mod` interval = 0) (S <$> seq 1 (length new))).
  { generalize (seq 1 (length new)) as ks. intros ks.
    induction ks as [|k ks IHks]; [done|].
    rewrite fmap_cons, !filter_cons.
    replace (c + 1 + k) with (c + S k) by lia.
    destruct (decide ((c + S k) `mod` interval = 0)).
    - rewrite !fmap_cons, IHks. f_equal.
      rewrite length_app, <- app_assoc. simpl. f_equal. lia.
    - apply IHks. }
  rewrite Htail. clear Htail.
  destruct (decide ((c + 1) `mod` interval = 0)) as [Hz|Hnz].
  - apply Nat.eqb_eq in Hz as ->. rewrite fmap_cons, Hhead. done.
  - apply Nat.eqb_neq in Hnz as ->. done.
Qed.

Section DispatcherFacts.

Variable env : Env.

Lemma as_completed_from_perm n pending :
  length pending = n → as_completed_from env n pending ≡ₚ pending.
Proof.
  revert pending. induction n as [|n IH]; intros pending Hlen.
  - by destruct pending.
  - cbn [as_completed_from].
    destruct (pending !! _) as [kid|] eqn:Hlook.
    + rewrite IH.
      * symmetry. by apply delete_Permutation.
      * rewrite length_delete by eauto. lia.
    + apply lookup_ge_None in Hlook.
      pose proof (Nat.mod_upper_bound (next_done env pending) (length pending)).
      lia.
Qed.

(** Every submitted identifier completes once. *)
Lemma as_completed_perm submitted : as_completed env submitted ≡ₚ submitted.
Proof. by apply as_completed_from_perm. Qed.

Lemma as_completed_length submitted :
  length (as_completed env submitted) = length submitted.
Proof. by rewrite as_completed_perm. Qed.

Lemma run_future_spec kid st :
  ∃ r st' evs,
    run_future env kid st = (Ret (Ret r), st')
    ∧ download_lightkurve_data (client env) (Str kid) output_dir st = (Ret r, st')
    ∧ summary st' = summary st ∧ stdin st' = stdin st
    ∧ trace st' = trace st ++ evs ∧ Forall worker_event evs.
Proof.
  unfold run_future.
  destruct (download_returns (client env) (Str kid) output_dir st)
    as (r & st' & Hrun).
  destruct (worker_frame _ _ _ _ _ _ Hrun) as (Hs & Hi & evs & Ht & Hevs).
  exists r, st', evs. rewrite Hrun. done.
Qed.

Lemma submit_all_spec kepler_ids st :
  submit_all kepler_ids st
  = (Ret tt, {| files := files st; summary := summary st; stdin := stdin st;
                trace := trace st ++ (EvSubmit <$> kepler_ids) |}).
Proof.
  revert st. induction kepler_ids as [|kid rest IH]; intros st.
  - simpl. unfold ret. rewrite app_nil_r. by destruct st.
  - cbn [submit_all]. unfold bind, emit. rewrite IH. simpl.
    by rewrite <- app_assoc.
Qed.

Lemma summary_writes_submit kepler_ids :
  summary_writes (EvSubmit <$> kepler_ids) = [].
Proof. by induction kepler_ids. Qed.

(** The loop with a positive interval: it returns the results it was
    given followed by one row per completed future, and writes the
    table so far at each checkpoint. *)
Lemma collect_spec n order c results st :
  ∃ new st',
    collect env (S n) order c results st = (Ret (results ++ new), st')
    ∧ length new = length order
    ∧ stdin st' = stdin st
    ∧ summary_writes (trace st')
      = summary_writes (trace st) ++ checkpoint_rows (S n) c results new
    ∧ summary st'
      = match last (checkpoint_rows (S n) c results new) with
        | Some rows => Some (Rows rows)
        | None => summary st
        end.
Proof.
  revert c results st.
  induction order as [|kid order IH]; intros c results st.
  - exists [], st. simpl. unfold ret. by rewrite !app_nil_r.
  - cbn [collect]. unfold bind at 1.
    destruct (run_future_spec kid st)
      as (r & st1 & evs & Hrun & _ & Hsum & Hin & Htr & Hevs).
    rewrite Hrun. cbn [result_or_fallback].
    unfold bind, checkpoint.
    destruct ((c + 1) `mod` S n =? 0)%nat eqn:Hmod.
    + unfold write_summary.
      set (st2 := {| files := files st1; summary := Some (Rows (results ++ [r]));
                     stdin := stdin st1;
                     trace := trace st1 ++ [EvWriteSummary (results ++ [r])] |}).
      destruct (IH (c + 1) (results ++ [r]) st2)
        as (new & st' & Hrest & Hlen & Hin' & Hw & Hs).
      exists (r :: new), st'. rewrite Hrest.
      cbn [checkpoint_rows length]. rewrite Hmod.
      split; [by rewrite <- app_assoc|]. split; [by rewrite Hlen|].
      split; [by rewrite Hin'|].
      split.
      * rewrite Hw. subst st2. cbn [trace]. rewrite Htr.
        rewrite !summary_writes_app, (worker_events_no_summary evs Hevs).
        simpl. by rewrite app_nil_r, <- !app_assoc.
      * rewrite Hs. cbn [app].
        destruct (checkpoint_rows (S n) (c + 1) (results ++ [r]) new)
          as [|rows rest]; [done|].
        rewrite last_cons_cons.
        destruct (last (rows :: rest)) eqn:Hlast; [done|].
        by apply last_None in Hlast.
    + unfold ret.
      destruct (IH (c + 1) (results ++ [r]) st1)
        as (new & st' & Hrest & Hlen & Hin' & Hw & Hs).
      exists (r :: new), st'. rewrite Hrest.
      cbn [checkpoint_rows length]. rewrite Hmod.
      split; [by rewrite <- app_assoc|]. split; [by rewrite Hlen|].
      split; [by rewrite Hin', Hin|].
      split.
      * rewrite Hw, Htr, summary_writes_app,
          (worker_events_no_summary evs Hevs).
        by rewrite app_nil_r.
      * by rewrite Hs, Hsum.
Qed.

End DispatcherFacts.

Section PoolFacts.

Variable env : Env.

Lemma dispatch_spec n kepler_ids results st :
  ∃ new st',
    dispatch env (S n) kepler_ids results st = (Ret (results ++ new), st')
    ∧ length new = length kepler_ids
    ∧ stdin st' = stdin st
    ∧ summary_writes (trace st')
      = summary_writes (trace st) ++ checkpoint_rows (S n) 0 results new
    ∧ summary st'
      = match last (checkpoint_rows (S n) 0 results new) with
        | Some rows => Some (Rows rows)
        | None => summary st
        end.
Proof.
  unfold dispatch, bind. rewrite submit_all_spec.
  match goal with
  | |- context [collect env (S n) ?o 0 results ?s] =>
      destruct (collect_spec env n o 0 results s)
        as (new & st' & Hrun & Hlen & Hin & Hw & Hs)
  end.
  exists new, st'. rewrite Hrun. cbn [trace summary stdin] in *.
  rewrite as_completed_length in Hlen.
  rewrite summary_writes_app, summary_writes_submit, app_nil_r in Hw.
  done.
Qed.

(** The pool and the final write, for a positive interval. *)
Lemma dispatch_and_save_spec interval kepler_ids results st :
  0 < interval →
  ∃ new st',
    dispatch_and_save env interval kepler_ids results st
    = (match results ++ new with
       | [] => Raise (Exception "KeyError" "'success'")
       | _ :: _ => Ret tt
       end, st')
    ∧ length new = length kepler_ids
    ∧ summary_writes (trace st')
      = summary_writes (trace st)
        ++ ((λ k, take (length results + k) (results ++ new))
              <$> checkpoint_counts interval (length kepler_ids))
        ++ [results ++ new]
    ∧ summary st' = Some (Rows (results ++ new)).
Proof.
  intros Hpos. destruct interval as [|n]; [lia|].
  unfold dispatch_and_save, bind.
  destruct (dispatch_spec n kepler_ids results st)
    as (new & st' & Hrun & Hlen & _ & Hw & _).
  rewrite Hrun. unfold write_summary.
  exists new,
    {| files := files st'; summary := Some (Rows (results ++ new));
       stdin := stdin st';
       trace := trace st' ++ [EvWriteSummary (results ++ new)] |}.
  split.
  { destruct (results ++ new); reflexivity. }
  split; [done|]. cbn [trace summary]. split; [|done].
  rewrite summary_writes_app, Hw, checkpoint_rows_shift, Hlen.
  cbn [summary_writes]. by rewrite <- app_assoc.
Qed.

End PoolFacts.

(** C6. With a positive interval N, the pool writes the whole table so
    far after each completion whose count is a multiple of N, then once
    more at the end; each write replaces what the summary file held, and
    [main] runs with N = 50. *)
Theorem C6_checkpoint_every_interval
    (env : Env) (interval : nat) (kepler_ids : list string)
    (results : list FetchResult) (st : state) :
  0 < interval →
  ∃ new st' o,
    dispatch_and_save env interval kepler_ids results st = (o, st')
    ∧ length new = length kepler_ids
    ∧ summary_writes (trace st')
      = summary_writes (trace st)
        ++ ((λ k, take (length results + k) (results ++ new))
              <$> checkpoint_counts interval (length kepler_ids))
        ++ [results ++ new]
    ∧ summary st' = Some (Rows (results ++ new))
    ∧ (∀ rows s, summary (write_summary rows s).2 = Some (Rows rows))
    ∧ main env = main_with env 50.
Proof.
  intros Hpos.
  destruct (dispatch_and_save_spec env interval kepler_ids results st Hpos)
    as (new & st' & Hrun & Hlen & Hw & Hs).
  exists new, st'. eexists. split; [exact Hrun|]. done.
Qed.

(** Five identifiers with N = 2: the file is written after the second
    and the fourth completion, and a third time at the end. *)
Lemma C6_checkpoint_every_interval_witness :
  ∃ new st' o,
    dispatch_and_save (sample_env []) 2 ["1"; "2"; "3"; "4"; "5"] []
      empty_state = (o, st')
    ∧ length new = 5
    ∧ summary_writes (trace st') = [take 2 new; take 4 new; new].
Proof.
  destruct (C6_checkpoint_every_interval (sample_env []) 2
              ["1"; "2"; "3"; "4"; "5"] [] empty_state)
    as (new & st' & o & Hrun & Hlen & Hw & _); [lia|].
  exists new, st', o. split; [exact Hrun|]. split; [exact Hlen|].
  exact Hw.
Defined.

(** The same bound for any client, any completion order and any five
    identifiers. *)
Lemma checkpoint_bound_2_of_5 (env : Env) (a b c d e : string)
    (results : list FetchResult) (st : state) :
  ∃ new st' o,
    dispatch_and_save env 2 [a; b; c; d; e] results st = (o, st')
    ∧ summary_writes (trace st')
      = summary_writes (trace st)
        ++ [take (length results + 2) (results ++ new);
            take (length results + 4) (results ++ new);
            results ++ new].
Proof.
  destruct (dispatch_and_save_spec env 2 [a; b; c; d; e] results st)
    as (new & st' & Hrun & Hlen & Hw & _); [lia|].
  exists new, st'. eexists. split; [exact Hrun|]. exact Hw.
Qed.

(** ** The work-list builder *)

Lemma summary_pass_spec prior all :
  summary_pass prior all
  = (filter (λ kid, kid ∉ summary_ids prior) all, prior).
Proof.
  destruct prior as [|r prior]; cbn [summary_pass].
  - f_equal. symmetry. induction all as [|kid all IH]; [done|].
    rewrite filter_cons_True; [by rewrite IH|]. apply not_elem_of_nil.
  - f_equal. apply list_filter_iff. intros kid. cbn [Py.str].
    by rewrite elem_of_list_to_set.
Qed.

Lemma load_existing_results_spec st :
  load_existing_results st
  = (Ret match summary st with Some (Rows rows) => rows | _ => [] end, st).
Proof.
  unfold load_existing_results.
  destruct (summary st) as [[rows|]|]; reflexivity.
Qed.

Lemma build_work_list_spec all st :
  build_work_list all st
  = (Ret (file_pass (files st)
            (filter (λ kid, kid ∉ summary_ids
                       match summary st with Some (Rows rows) => rows | _ => [] end)
               all)
            match summary st with Some (Rows rows) => rows | _ => [] end), st).
Proof.
  unfold build_work_list, bind. rewrite load_existing_results_spec.
  rewrite summary_pass_spec.
  destruct (file_pass _ _ _) as [kepler_ids results]. reflexivity.
Qed.

Lemma file_pass_work (fs : gmap string string) (kepler_ids : list string)
    (results : list FetchResult) (kid : string) :
  kid ∈ (file_pass fs kepler_ids results).1 → kid ∈ kepler_ids.
Proof.
  unfold file_pass.
  destruct (filter _ _) as [|f existing]; cbn [fst]; [done|].
  by intros [_ ?]%list_elem_of_filter.
Qed.

(** C4 as the specification words it does not hold for the builder: with
    the prior summary holding 1 and 2, the input 1, 2, 3 and the artifact
    of 3 on disk, the on-disk pass takes 3 out as well and the builder
    produces the empty work list, with a synthetic row for 3. *)
Lemma C4_artifact_on_disk_counterexample :
  let prior :=
    [ {| kepler_id := Int 1; success := true;
         output_file := Some "lightkurve_data/kepler_1_lightkurve.csv";
         status := "Downloaded" |};
      {| kepler_id := Int 2; success := false; output_file := None;
         status := "No light curve found" |} ] in
  let st := {| files := {[ "lightkurve_data/kepler_3_lightkurve.csv"
                           := "time,flux,kepler_id" ]};
               summary := Some (Rows prior); stdin := []; trace := [] |} in
  summary_ids prior = ["1"; "2"]
  ∧ build_work_list ["1"; "2"; "3"] st
    = (Ret ([], prior
                ++ [ {| kepler_id := Str "3"; success := true;
                        output_file :=
                          Some "lightkurve_data/kepler_3_lightkurve.csv";
                        status := "Found existing file" |} ]), st).
Proof. split; by vm_compute. Qed.

(** C4. With a prior summary whose identifiers are A and B, the input
    A, B, C and no artifact file for C on disk, the builder produces
    exactly the work list C and the prior rows, and leaves the store as it
    is. Whatever the input and the disk, the builder's work list is taken
    from the input and holds no identifier whose [str] equals the [str]
    of the identifier of a row of the prior summary. *)
Theorem C4_resume_skips_summarised
    (prior : list FetchResult) (A B C : Py.value) (st : state) :
  summary st = Some (Rows prior) →
  (∀ x, x ∈ summary_ids prior ↔ x = Py.str A ∨ x = Py.str B) →
  Py.str C ≠ Py.str A →
  Py.str C ≠ Py.str B →
  files st !! artifact_path (Py.str C) = None →
  build_work_list (Py.str <$> [A; B; C]) st = (Ret ([Py.str C], prior), st)
  ∧ ∀ all, ∃ work results,
      build_work_list all st = (Ret (work, results), st)
      ∧ ∀ kid, kid ∈ work →
          kid ∈ all
          ∧ ∀ r, r ∈ prior → Py.str (Str kid) ≠ Py.str (kepler_id r).
Proof.
  intros Hsum Hids HCA HCB Hfile. split.
  - rewrite build_work_list_spec, Hsum.
    do 2 f_equal. cbn [fmap list_fmap].
    rewrite filter_cons_False by (rewrite Hids; tauto).
    rewrite filter_cons_False by (rewrite Hids; tauto).
    rewrite filter_cons_True by (rewrite Hids; intros [?|?]; done).
    rewrite filter_nil. unfold file_pass. cbn [fmap list_fmap].
    fold (artifact_path (Py.str C)).
    rewrite filter_cons_False; [done|]. rewrite Hfile. by intros [? ?].
  - intros all. rewrite build_work_list_spec, Hsum.
    destruct (file_pass (files st)
                (filter (λ kid, kid ∉ summary_ids prior) all) prior)
      as [work results] eqn:Hpass.
    exists work, results. split; [done|].
    intros kid Hkid.
    assert (Hin : kid ∈ filter (λ kid, kid ∉ summary_ids prior) all).
    { apply (file_pass_work (files st) _ prior). by rewrite Hpass. }
    apply list_elem_of_filter in Hin as [Hnot Hin]. split; [done|].
    intros r Hr Heq. apply Hnot. unfold summary_ids.
    apply list_elem_of_fmap. exists r. by split.
Qed.

Lemma C4_resume_skips_summarised_witness :
  let prior :=
    [ {| kepler_id := Int 1; success := true;
         output_file := Some "lightkurve_data/kepler_1_lightkurve.csv";
         status := "Downloaded" |};
      {| kepler_id := Int 2; success := false; output_file := None;
         status := "No light curve found" |} ] in
  let st := {| files := {[ "lightkurve_data/kepler_1_lightkurve.csv"
                           := "time,flux,kepler_id" ]};
               summary := Some (Rows prior); stdin := []; trace := [] |} in
  build_work_list ["1"; "2"; "3"] st = (Ret (["3"], prior), st).
Proof.
  intros prior st.
  refine (proj1 (C4_resume_skips_summarised prior (Str "1") (Str "2")
                   (Str "3") st _ _ _ _ _)).
  - reflexivity.
  - intros x. unfold summary_ids, prior.
    cbn [fmap list_fmap kepler_id Py.str].
    change (pretty 1%Z) with "1". change (pretty 2%Z) with "2".
    rewrite !elem_of_cons, elem_of_nil. tauto.
  - vm_compute. discriminate.
  - vm_compute. discriminate.
  - by vm_compute.
Defined.

(** ** The identifier column *)

Lemma main_with_column (env : Env) interval df_input st :
  read_input env = Ret df_input →
  "kepid" ∈ column_names df_input →
  main_with env interval st
  = run_with_column env interval df_input "kepid"
      (logged [using_column "kepid"] st).
Proof.
  intros Hread Hcol. unfold main_with, resolve_column, bind, lift.
  rewrite Hread, (bool_decide_eq_true_2 _ Hcol). reflexivity.
Qed.

(** C7. When the column [kepid] is absent, the run first reports it by
    name, lists the columns the table has, and asks for a substitute.
    At the end of input the prompt raises; with a substitute that is
    absent too the run says so and returns, having submitted nothing and
    written nothing; with a substitute that is present the run goes on
    with it, all of this before the first submission. *)
Theorem C7_missing_column_stops_before_dispatch
    (env : Env) (interval : nat) (df_input : DataFrame) (st : state) :
  read_input env = Ret df_input →
  "kepid" ∉ column_names df_input →
  match stdin st with
  | [] =>
      main_with env interval st
      = (Raise (Exception "EOFError" "EOF when reading a line"),
         logged (missing_column_report df_input) st)
  | substitute :: rest =>
      let asked :=
        {| files := files st; summary := summary st; stdin := rest;
           trace := trace st ++ missing_column_report df_input |} in
      if bool_decide (substitute ∈ column_names df_input) then
        main_with env interval st
        = run_with_column env interval df_input substitute
            (logged [using_column substitute] asked)
      else
        main_with env interval st
        = (Ret tt,
           logged [EvPrint ("Column '" +:+ substitute
                            +:+ "' not found. Exiting.")] asked)
  end.
Proof.
  intros Hread Hcol.
  unfold main_with, resolve_column, input, bind, lift, emit, ret, logged,
    missing_column_report, using_column.
  rewrite Hread, (bool_decide_eq_false_2 _ Hcol). cbn [stdin trace files summary].
  destruct (stdin st) as [|substitute rest].
  - by rewrite <- !app_assoc.
  - destruct (bool_decide (substitute ∈ column_names df_input));
      cbn [stdin trace files summary]; by rewrite <- !app_assoc.
Qed.

(** The operator answers with a column the table lacks as well. *)
Lemma C7_missing_column_stops_before_dispatch_witness :
  main env_without_kepid
    {| files := ∅; summary := None; stdin := ["kepler_id"]; trace := [] |}
  = (Ret tt,
     {| files := ∅; summary := None; stdin := [];
        trace :=
          [ EvPrint "Column 'kepid' not found in the input CSV.";
            EvPrintList "Available columns:" ["kepoi_name"; "koi_disposition"];
            EvInput "Please enter the column name containing Kepler IDs: ";
            EvPrint "Column 'kepler_id' not found. Exiting." ] |}).
Proof.
  refine (C7_missing_column_stops_before_dispatch env_without_kepid
            save_interval table_without_kepid
            {| files := ∅; summary := None; stdin := ["kepler_id"];
               trace := [] |} _ _).
  - reflexivity.
  - unfold column_names. simpl. rewrite !not_elem_of_cons.
    repeat split; try discriminate. apply not_elem_of_nil.
Defined.

(** ** Resuming *)

(** C10. A summary file that cannot be parsed does not stop the run: the
    load yields no prior rows, the summary pass drops nothing (the work
    list is the whole input less what the on-disk pass finds), and the
    run goes on to the pool. *)
Theorem C10_unparsable_summary_starts_fresh
    (env : Env) (interval : nat) (df_input : DataFrame) (koi_column : string)
    (cells : list Py.value) (st : state) :
  summary st = Some Unparsable →
  get_column koi_column df_input = Ret cells →
  let all_kepler_ids := Py.str <$> cells in
  load_existing_results st = (Ret [], st)
  ∧ summary_pass [] all_kepler_ids = (all_kepler_ids, [])
  ∧ build_work_list all_kepler_ids st
    = (Ret (file_pass (files st) all_kepler_ids []), st)
  ∧ run_with_column env interval df_input koi_column st
    = dispatch_and_save env interval
        (file_pass (files st) all_kepler_ids []).1
        (file_pass (files st) all_kepler_ids []).2 st.
Proof.
  intros Hsum Hcol all_kepler_ids.
  assert (Hbuild : build_work_list all_kepler_ids st
                   = (Ret (file_pass (files st) all_kepler_ids []), st)).
  { unfold build_work_list, bind, load_existing_results.
    rewrite Hsum. cbn [read_summary try_except raise ret summary_pass].
    destruct (file_pass _ _ _) as [kepler_ids results]. reflexivity. }
  split.
  { unfold load_existing_results. by rewrite Hsum. }
  split; [done|]. split; [done|].
  unfold run_with_column, bind, lift. rewrite Hcol.
  fold all_kepler_ids. by rewrite Hbuild.
Qed.

Lemma C10_unparsable_summary_starts_fresh_witness :
  let st := {| files := ∅; summary := Some Unparsable; stdin := [];
               trace := [] |} in
  build_work_list ["1"; "2"] st = (Ret (["1"; "2"], []), st).
Proof.
  intros st.
  refine (proj1 (proj2 (proj2
    (C10_unparsable_summary_starts_fresh (sample_env [Int 1; Int 2])
       save_interval
       {| nrows := 2; columns := [("kepid", [Int 1; Int 2])] |}
       "kepid" [Int 1; Int 2] st _ _)))); reflexivity.
Defined.

(** ** The on-disk pass *)

Lemma file_pass_one_of_two (fs : gmap string string) (a b : string)
    (results : list FetchResult) :
  fs !! artifact_path a = None →
  is_Some (fs !! artifact_path b) →
  id_of_file (artifact_path b) = b →
  file_pass fs [a; b] results
  = ([a], results ++ [found_existing (artifact_path b)]).
Proof.
  intros Ha Hb Hid.
  assert (Hab : a ≠ b).
  { intros ->. rewrite Ha in Hb. by destruct Hb. }
  unfold file_pass. cbn [fmap list_fmap].
  fold (artifact_path a). fold (artifact_path b).
  rewrite filter_cons_False by (rewrite Ha; by intros [? ?]).
  rewrite filter_cons_True by done.
  rewrite filter_nil. cbn [fmap list_fmap]. rewrite Hid.
  f_equal.
  rewrite filter_cons_True.
  2:{ rewrite elem_of_list_to_set, list_elem_of_singleton. done. }
  rewrite filter_cons_False; [done|].
  intros Hnot. apply Hnot.
  rewrite elem_of_list_to_set. apply list_elem_of_here.
Qed.

(** C3 as the specification words it does not hold. With the ordinary
    identifiers 1 and 2 the synthetic row's status is spelled "Found
    existing file", and no row of the final summary has the status
    "found existing file". With the identifiers 1 and kepler_1, and the
    artifact of kepler_1 on disk, the identifier taken back from the file
    name is 1: the work list is kepler_1 and the synthetic row is filed
    under 1. *)
Lemma C3_on_disk_counterexample :
  (let st := {| files := {[ "lightkurve_data/kepler_2_lightkurve.csv" := "time,flux" ]};
                summary := None; stdin := []; trace := [] |} in
   let rows :=
     [ {| kepler_id := Str "2"; success := true;
          output_file := Some "lightkurve_data/kepler_2_lightkurve.csv";
          status := "Found existing file" |};
       {| kepler_id := Str "1"; success := true;
          output_file := Some "lightkurve_data/kepler_1_lightkurve.csv";
          status := "Downloaded" |} ] in
   summary (main (sample_env [Int 1; Int 2]) st).2 = Some (Rows rows)
   ∧ Forall (λ r, status r ≠ "found existing file") rows)
  ∧ (let st := {| files := {[ "lightkurve_data/kepler_kepler_1_lightkurve.csv" := "time,flux" ]};
                  summary := None; stdin := []; trace := [] |} in
     build_work_list ["1"; "kepler_1"] st
     = (Ret (["kepler_1"],
             [ {| kepler_id := Str "1"; success := true;
                  output_file :=
                    Some "lightkurve_data/kepler_kepler_1_lightkurve.csv";
                  status := "Found existing file" |} ]), st)).
Proof.
  split; [split|].
  - by vm_compute.
  - repeat constructor; discriminate.
  - by vm_compute.
Qed.

(** C3 (amended). With the input A, B, no summary file, no artifact for A
    and an artifact for B whose file name gives B back (it does for an
    identifier free of the template's own fragments, such as a catalog
    number), the builder leaves exactly A and records for B a row with
    success true and status "Found existing file"; that row opens the
    summary [main] writes at the end. *)
Theorem C3_on_disk_precedence
    (lk : Lightkurve) (sched : list string → nat) (a b : string) (st : state) :
  summary st = None →
  files st !! artifact_path a = None →
  is_Some (files st !! artifact_path b) →
  id_of_file (artifact_path b) = b →
  let env := {| client := lk;
                read_input :=
                  Ret {| nrows := 2; columns := [("kepid", [Str a; Str b])] |};
                next_done := sched |} in
  let found := {| kepler_id := Str b; success := true;
                  output_file := Some (artifact_path b);
                  status := "Found existing file" |} in
  build_work_list [a; b] st = (Ret ([a], [found]), st)
  ∧ ∃ r st', main env st = (Ret tt, st')
             ∧ summary st' = Some (Rows [found; r]).
Proof.
  intros Hsum Ha Hb Hid env found.
  assert (Hbuild : ∀ s, summary s = None → files s = files st →
            build_work_list [a; b] s = (Ret ([a], [found]), s)).
  { intros s Hs Hf. rewrite build_work_list_spec, Hs, Hf.
    assert (Hall : filter (λ kid, kid ∉ summary_ids []) [a; b] = [a; b]).
    { rewrite !filter_cons_True by apply not_elem_of_nil. done. }
    rewrite Hall, (file_pass_one_of_two _ a b [] Ha Hb Hid).
    unfold found_existing. by rewrite Hid. }
  split; [by apply Hbuild|].
  unfold main. rewrite (main_with_column env save_interval _ st eq_refl).
  2:{ unfold column_names. simpl. apply list_elem_of_here. }
  unfold run_with_column, bind, lift.
  assert (Hget : get_column "kepid"
                   {| nrows := 2; columns := [("kepid", [Str a; Str b])] |}
                 = Ret [Str a; Str b]) by reflexivity.
  rewrite Hget. cbn [fmap list_fmap Py.str].
  rewrite Hbuild by done. cbn [fst snd].
  destruct (dispatch_and_save_spec env save_interval [a] [found]
              (logged [using_column "kepid"] st))
    as (new & st' & Hrun & Hlen & _ & Hfinal); [unfold save_interval; lia|].
  destruct new as [|r [|? ?]]; try discriminate.
  exists r, st'. by rewrite Hrun.
Qed.

Lemma C3_on_disk_precedence_witness :
  let st := {| files := {[ "lightkurve_data/kepler_2_lightkurve.csv" := "time,flux" ]};
               summary := None; stdin := []; trace := [] |} in
  build_work_list ["1"; "2"] st
  = (Ret (["1"],
          [ {| kepler_id := Str "2"; success := true;
               output_file := Some "lightkurve_data/kepler_2_lightkurve.csv";
               status := "Found existing file" |} ]), st).
Proof.
  intros st.
  refine (proj1 (C3_on_disk_precedence sample_client (λ _, 0) "1" "2" st
                   _ _ _ _)).
  - reflexivity.
  - by vm_compute.
  - vm_compute. eauto.
  - by vm_compute.
Defined.

(** ** Catalog numbers survive the file-name round trip *)

Lemma digit_cases c :
  is_digit c = true →
  c ∈ ["0"; "1"; "2"; "3"; "4"; "5"; "6"; "7"; "8"; "9"]%char.
Proof.
  destruct c as [[] [] [] [] [] [] [] []]; vm_compute; intros H;
    try discriminate; set_solver.
Qed.

Ltac by_digit Hc :=
  apply digit_cases in Hc;
  repeat (apply elem_of_cons in Hc as [->|Hc]; [done|]);
  by apply elem_of_nil in Hc.

Lemma replace_prefix_digits (b : string) :
  all_digits b = true →
  Py.replace_from 0 "kepler_" "" (b +:+ "_lightkurve.csv")
  = b +:+ "_lightkurve.csv".
Proof.
  induction b as [|c b IH]; [done|].
  cbn [all_digits]. intros [Hc Hb]%andb_true_iff.
  change (String c b +:+ "_lightkurve.csv")
    with (String c (b +:+ "_lightkurve.csv")).
  cbn [Py.replace_from].
  assert (Hpre : String.prefix "kepler_"
                   (String c (b +:+ "_lightkurve.csv")) = false)
    by by_digit Hc.
  rewrite Hpre. by rewrite IH.
Qed.

Lemma replace_suffix_digits (b : string) :
  all_digits b = true →
  Py.replace_from 0 "_lightkurve.csv" "" (b +:+ "_lightkurve.csv") = b.
Proof.
  induction b as [|c b IH]; [done|].
  cbn [all_digits]. intros [Hc Hb]%andb_true_iff.
  change (String c b +:+ "_lightkurve.csv")
    with (String c (b +:+ "_lightkurve.csv")).
  cbn [Py.replace_from].
  assert (Hpre : String.prefix "_lightkurve.csv"
                   (String c (b +:+ "_lightkurve.csv")) = false)
    by by_digit Hc.
  rewrite Hpre. by rewrite IH.
Qed.

Lemma string_app_assoc (s1 s2 s3 : string) :
  (s1 +:+ s2) +:+ s3 = s1 +:+ (s2 +:+ s3).
Proof.
  induction s1 as [|c s1 IH]; [done|].
  change (String c ((s1 +:+ s2) +:+ s3) = String c (s1 +:+ (s2 +:+ s3))).
  by rewrite IH.
Qed.

Lemma prefix_app (s t : string) : String.prefix s (s +:+ t) = true.
Proof.
  induction s as [|c s IH]; [by destruct t|].
  change (String c s +:+ t) with (String c (s +:+ t)).
  cbn [String.prefix]. by destruct (ascii_dec c c).
Qed.

Lemma basename_from_no_sep (s cur : string) :
  no_sep s = true → OsPath.basename_from cur s = cur +:+ s.
Proof.
  revert cur. induction s as [|c s IH]; intros cur.
  - intros _. simpl. induction cur as [|c cur IHc]; [done|].
    change (String c cur = String c (cur +:+ "")). by rewrite <- IHc.
  - cbn [no_sep OsPath.basename_from].
    destruct (decide (c = "/"%char)); [done|]. intros Hs.
    rewrite IH by done. apply string_app_assoc.
Qed.

Lemma no_sep_digits (b s : string) :
  all_digits b = true → no_sep s = true → no_sep (b +:+ s) = true.
Proof.
  intros Hb Hs. induction b as [|c b IH]; [done|].
  cbn [all_digits] in Hb. apply andb_true_iff in Hb as [Hc Hb].
  change (String c b +:+ s) with (String c (b +:+ s)).
  cbn [no_sep]. rewrite IH by done.
  destruct (decide (c = "/"%char)) as [->|]; [done|done].
Qed.

(** A catalog number is read back from its artifact's path as it was. *)
Lemma id_of_file_catalog_number (b : string) :
  all_digits b = true → id_of_file (artifact_path b) = b.
Proof.
  intros Hb. unfold id_of_file, artifact_path, artifact_name.
  assert (Hbase : OsPath.basename
                    (OsPath.join output_dir
                       ("kepler_" +:+ b +:+ "_lightkurve.csv"))
                  = "kepler_" +:+ b +:+ "_lightkurve.csv").
  { unfold OsPath.basename, OsPath.join, output_dir. simpl.
    etrans;
      [apply basename_from_no_sep; by apply (no_sep_digits b "_lightkurve.csv")|].
    reflexivity. }
  rewrite Hbase.
  assert (Hstrip : Py.replace "kepler_" "" ("kepler_" +:+ b +:+ "_lightkurve.csv")
                   = Py.replace_from 0 "kepler_" "" (b +:+ "_lightkurve.csv")).
  { change ("kepler_" +:+ b +:+ "_lightkurve.csv")
      with (String "k" ("epler_" +:+ b +:+ "_lightkurve.csv")).
    cbn [Py.replace Py.replace_from].
    change (String "k" ("epler_" +:+ b +:+ "_lightkurve.csv"))
      with ("kepler_" +:+ b +:+ "_lightkurve.csv").
    by rewrite prefix_app. }
  rewrite Hstrip, replace_prefix_digits by done.
  by apply replace_suffix_digits.
Qed.

(** ** Resumed runs and blank-padded identifiers *)

(** C5 fails on a text identifier with a trailing blank (the column is
    text because it also holds K2-18). The worker files its row and its
    artifact under the stripped identifier; on the next run the builder
    compares the unstripped one with the summary and probes the
    unstripped file name, finds neither, and submits the identifier
    again; the worker's short-circuit row is then appended under the
    identifier the summary already holds. *)
Lemma C5_padded_identifier_recorded_twice :
  let env := sample_env [Str "757450 "; Str "K2-18"] in
  let failed :=
    {| kepler_id := Str "K2-18"; success := false; output_file := None;
       status := "Error: 503 Service Unavailable" |} in
  let downloaded :=
    {| kepler_id := Str "757450"; success := true;
       output_file := Some "lightkurve_data/kepler_757450_lightkurve.csv";
       status := "Downloaded" |} in
  let skipped :=
    {| kepler_id := Str "757450"; success := true;
       output_file := Some "lightkurve_data/kepler_757450_lightkurve.csv";
       status := "Skipped (already exists)" |} in
  ∃ st1 st2,
    main env empty_state = (Ret tt, st1)
    ∧ summary st1 = Some (Rows [failed; downloaded])
    ∧ main env st1 = (Ret tt, st2)
    ∧ summary st2 = Some (Rows [failed; downloaded; skipped])
    ∧ ¬ no_identifier_twice [failed; downloaded; skipped].
Proof.
  intros env failed downloaded skipped.
  destruct (main env empty_state) as [o1 st1] eqn:H1.
  destruct (main env st1) as [o2 st2] eqn:H2.
  exists st1, st2.
  vm_compute in H1. injection H1 as <- <-.
  vm_compute in H2. injection H2 as <- <-.
  repeat split; try reflexivity.
  unfold no_identifier_twice, summary_ids. simpl.
  rewrite !NoDup_cons. intros (_ & Hnot & _).
  apply Hnot, list_elem_of_here.
Qed.

(** ** Identifiers the file-name template round-trips *)

Section CleanIdentifiers.

Variable env : Env.

Lemma worker_result_id (lk : Lightkurve) kid dir st r st' :
  download_lightkurve_data lk kid dir st = (Ret r, st') →
  kepler_id r = Str (Py.strip (Py.str kid)).
Proof.
  unfold download_lightkurve_data, try_except.
  destruct (try_block _ _ _ _) as [[r0|e] st0] eqn:Hbody; unfold ret;
    intros Heq; simplify_eq.
  - by apply try_block_returns in Hbody as [? _].
  - done.
Qed.

Lemma collect_ids n order c results st :
  ∃ new st',
    collect env (S n) order c results st = (Ret (results ++ new), st')
    ∧ summary_ids new = Py.strip <$> order.
Proof.
  revert c results st.
  induction order as [|kid order IH]; intros c results st.
  - exists [], st. simpl. unfold ret. by rewrite app_nil_r.
  - cbn [collect]. unfold bind at 1.
    destruct (run_future_spec env kid st)
      as (r & st1 & evs & Hrun & Hwork & _).
    rewrite Hrun. cbn [result_or_fallback].
    apply worker_result_id in Hwork.
    unfold bind.
    destruct (checkpoint (S n) (c + 1) (results ++ [r]) st1)
      as [[[]|e] st2] eqn:Hcp.
    + destruct (IH (c + 1) (results ++ [r]) st2) as (new & st' & Hrest & Hids).
      exists (r :: new), st'. rewrite Hrest, <- app_assoc.
      split; [done|]. unfold summary_ids in *. cbn [fmap list_fmap].
      by rewrite Hids, Hwork.
    + unfold checkpoint, write_summary, ret in Hcp.
      destruct ((c + 1) `mod` S n =? 0)%nat; discriminate.
Qed.

Lemma dispatch_ids n kepler_ids results st new st' :
  dispatch env (S n) kepler_ids results st = (Ret (results ++ new), st') →
  summary_ids new ≡ₚ Py.strip <$> kepler_ids.
Proof.
  unfold dispatch, bind. rewrite submit_all_spec.
  match goal with
  | |- context [collect env (S n) ?o 0 results ?s] =>
      destruct (collect_ids n o 0 results s) as (new' & st'' & Hrun & Hids)
  end.
  rewrite Hrun. intros Heq. simplify_eq.
  rewrite Hids. by rewrite as_completed_perm.
Qed.

Lemma existing_artifacts (fs : gmap string string) (kepler_ids : list string) :
  filter (λ f, is_Some (fs !! f))
    ((λ kid, OsPath.join output_dir (artifact_name kid)) <$> kepler_ids)
  = artifact_path
    <$> filter (λ kid, is_Some (fs !! artifact_path kid)) kepler_ids.
Proof.
  induction kepler_ids as [|kid l IH]; [done|].
  rewrite fmap_cons, !filter_cons, IH. unfold artifact_path.
  by destruct (decide _).
Qed.

Lemma filter_ext_in {A} (P Q : A → Prop) `{∀ x, Decision (P x)}
    `{∀ x, Decision (Q x)} (l : list A) :
  (∀ x, x ∈ l → (P x ↔ Q x)) → filter P l = filter Q l.
Proof.
  induction l as [|x l IH]; intros Hiff; [done|].
  rewrite !filter_cons.
  rewrite IH by (intros y Hy; apply Hiff; by right).
  pose proof (Hiff x (list_elem_of_here x l)) as Hx.
  destruct (decide (P x)), (decide (Q x)); tauto.
Qed.

(** The on-disk pass over clean identifiers: those with an artifact get
    their synthetic row under their own name, the others stay in the
    work list. *)
Lemma file_pass_clean (fs : gmap string string) (kepler_ids : list string)
    (results : list FetchResult) :
  Forall clean_identifier kepler_ids →
  ∃ on_disk work rows,
    file_pass fs kepler_ids results = (work, results ++ rows)
    ∧ summary_ids rows = on_disk
    ∧ on_disk ++ work ≡ₚ kepler_ids.
Proof.
  intros Hclean. unfold file_pass.
  set (has_file := λ kid, is_Some (fs !! artifact_path kid)).
  assert (Hfiles :
    filter (λ f, is_Some (fs !! f))
      ((λ kid, OsPath.join output_dir (artifact_name kid)) <$> kepler_ids)
    = artifact_path <$> filter has_file kepler_ids).
  { apply existing_artifacts. }
  rewrite Hfiles. clear Hfiles.
  assert (Hids : ∀ l, Forall clean_identifier l →
            id_of_file <$> (artifact_path <$> l) = l).
  { intros l Hl. induction Hl as [|kid l [_ Hkid] _ IH]; [done|].
    cbn [fmap list_fmap] in *. by rewrite Hkid, IH. }
  assert (Hsub : Forall clean_identifier (filter has_file kepler_ids)).
  { apply Forall_forall. intros kid [_ Hin]%list_elem_of_filter.
    by eapply Forall_forall in Hclean. }
  destruct (filter has_file kepler_ids) as [|kid0 found] eqn:Hfound.
  - exists [], kepler_ids, []. cbn. by rewrite app_nil_r.
  - destruct (artifact_path <$> kid0 :: found) as [|p ps] eqn:Hmap;
      [discriminate|].
    rewrite <- Hmap. clear p ps Hmap.
    rewrite (Hids _ Hsub).
    eexists (kid0 :: found), _, _. split; [reflexivity|].
    split.
    + unfold summary_ids. rewrite <- list_fmap_compose.
      exact (Hids _ Hsub).
    + rewrite <- Hfound.
      rewrite (filter_ext_in (λ kid, kid ∉ _) (λ kid, ¬ has_file kid)).
      * apply filter_app_complement.
      * intros kid Hin. rewrite elem_of_list_to_set, list_elem_of_filter.
        tauto.
Qed.

(** For clean and distinct identifiers, on top of a summary that holds no
    identifier twice, a run leaves a summary that holds none twice. *)
Lemma clean_identifiers_recorded_once interval df_input koi_column cells st :
  0 < interval →
  get_column koi_column df_input = Ret cells →
  NoDup (Py.str <$> cells) →
  Forall clean_identifier (Py.str <$> cells) →
  no_identifier_twice
    match summary st with Some (Rows rows) => rows | _ => [] end →
  ∃ rows,
    summary (run_with_column env interval df_input koi_column st).2
    = Some (Rows rows)
    ∧ no_identifier_twice rows.
Proof.
  intros Hpos Hcol Hnodup Hclean Hprior.
  set (prior := match summary st with Some (Rows rows) => rows | _ => [] end)
    in *.
  unfold run_with_column, bind, lift. rewrite Hcol.
  rewrite build_work_list_spec. fold prior.
  set (kept := filter (λ kid, kid ∉ summary_ids prior) (Py.str <$> cells)).
  assert (Hkept_clean : Forall clean_identifier kept).
  { apply Forall_forall. intros kid [_ Hin]%list_elem_of_filter.
    by eapply Forall_forall in Hclean. }
  destruct (file_pass_clean (files st) kept prior Hkept_clean)
    as (on_disk & work & rows & Hpass & Hrows & Hperm).
  rewrite Hpass. cbn [fst snd].
  destruct interval as [|n]; [lia|].
  destruct (dispatch_spec env n work (prior ++ rows) st)
    as (new' & st1 & Hdisp & _).
  assert (Hnew : summary_ids new' ≡ₚ Py.strip <$> work)
    by by eapply dispatch_ids.
  exists ((prior ++ rows) ++ new'). split.
  { unfold dispatch_and_save, bind. rewrite Hdisp. unfold write_summary.
    by destruct ((prior ++ rows) ++ new'). }
  unfold no_identifier_twice in *. unfold summary_ids in *.
  rewrite !fmap_app, <- app_assoc. fold (summary_ids prior) in *.
  assert (Hwork : Py.strip <$> work = work).
  { assert (Hw : Forall clean_identifier work).
    { apply Forall_forall. intros kid Hin.
      eapply Forall_forall in Hkept_clean; [done|].
      rewrite <- Hperm. apply elem_of_app. by right. }
    clear -Hw. induction Hw as [|kid l [Hkid _] _ IH]; [done|].
    cbn [fmap list_fmap]. by rewrite Hkid, IH. }
  rewrite Hwork in Hnew. rewrite Hrows, Hnew, Hperm.
  apply NoDup_app. split; [done|]. split.
  - intros x Hx [Hnot _]%list_elem_of_filter. done.
  - by apply NoDup_filter.
Qed.

Lemma rev_app_rev_app (s1 s2 s3 : string) :
  String.rev_app (String.rev_app s1 s2) s3 = String.rev_app s2 (s1 +:+ s3).
Proof.
  revert s2 s3. induction s1 as [|c s1 IH]; intros s2 s3; [done|].
  cbn [String.rev_app]. rewrite IH. done.
Qed.

Lemma rev_involutive (s : string) : String.rev (String.rev s) = s.
Proof.
  unfold String.rev. rewrite rev_app_rev_app. cbn [String.rev_app].
  induction s as [|c s IH]; [done|].
  change (String c s +:+ "") with (String c (s +:+ "")). by rewrite IH.
Qed.

Lemma all_digits_rev_app (s1 s2 : string) :
  all_digits s1 = true → all_digits s2 = true →
  all_digits (String.rev_app s1 s2) = true.
Proof.
  revert s2. induction s1 as [|c s1 IH]; intros s2 H1 H2; [done|].
  cbn [all_digits] in H1. apply andb_true_iff in H1 as [Hc H1].
  cbn [String.rev_app]. apply IH; [done|]. cbn [all_digits]. by rewrite Hc.
Qed.

Lemma lstrip_digits (s : string) : all_digits s = true → Py.lstrip s = s.
Proof.
  destruct s as [|c s]; [done|]. cbn [all_digits Py.lstrip].
  intros [Hc _]%andb_true_iff.
  assert (Hsp : Py.isspace c = false) by by_digit Hc.
  by rewrite Hsp.
Qed.

(** Catalog numbers are clean. *)
Lemma catalog_number_clean (b : string) :
  all_digits b = true → clean_identifier b.
Proof.
  intros Hb. split; [|by apply id_of_file_catalog_number].
  unfold Py.strip. rewrite (lstrip_digits b Hb).
  rewrite lstrip_digits; [apply rev_involutive|].
  by apply all_digits_rev_app.
Qed.

End CleanIdentifiers.

(** ** Backup and restore *)

Section StandardizeFacts.

Import Standardize.

Variable lib : Tables.
Variable timestamp : string.

Lemma string_app_length (s t : string) :
String.length (s +:+ t) = String.length s + String.length t.
Proof.
induction s as [|c s IH]; [done|].
change (String c s +:+ t) with (String c (s +:+ t)). simpl. by rewrite IH.
Qed.

(** The backup never has the name of the file it copies. *)
Lemma backup_path_fresh (file_path : string) :
backup_path_of timestamp file_path ≠ file_path.
Proof.
unfold backup_path_of. intros Heq.
apply (f_equal String.length) in Heq.
rewrite !string_app_length in Heq. simpl in Heq. lia.
Qed.

(** A copy that goes through. *)
Lemma copy2_spec src dst st text :
files st !! src = Some text →
copy_outcome lib src dst text = Written →
copy2 lib src dst st
= (Ret tt, {| files := <[dst := text]> (files st); summary := summary st;
              stdin := stdin st; trace := trace st ++ [EvCopy src dst] |}).
Proof.
intros Hsrc Hcopy. unfold copy2, bind, emit, set_files. simpl.
by rewrite Hsrc, Hcopy.
Qed.

(** What the body of the [try] leaves once the backup copy has gone
  through: the backup was taken first and holds the original content;
  unless the body ends in [Updated], the file either still holds the
  original content or is what a failed rewrite left of it; the body itself
  never ends in [Failed]. *)
Lemma try_body_spec (file : file_info) st original :
files st !! path file = Some original →
copy_outcome lib (path file) (backup_path_of timestamp (path file)) original
= Written →
∃ o st' evs,
  try_body lib timestamp file st = (o, st')
  ∧ trace st'
    = trace st
      ++ EvCopy (path file) (backup_path_of timestamp (path file)) :: evs
  ∧ files st' !! backup_path_of timestamp (path file) = Some original
  ∧ summary st' = summary st ∧ stdin st' = stdin st
  ∧ match o with
    | Ret Updated => is_Some (files st' !! path file)
    | Ret (Unmapped _) => files st' !! path file = Some original
    | Ret (Failed _) => False
    | Raise _ => True
    end.
Proof.
intros Horig Hcopy.
pose proof (backup_path_fresh (path file)) as Hfresh.
assert (Hfresh' : path file ≠ backup_path_of timestamp (path file)) by done.
unfold try_body, bind at 1.
rewrite (copy2_spec _ _ _ _ Horig Hcopy).
unfold print, read_text, read_file, write_text, bind, lift, emit, ret, raise,
  set_files.
cbn [files trace summary stdin].
repeat (step_match; cbn [files trace summary stdin] in *;
        rewrite ?(lookup_insert_ne (files st)) in * by done;
        rewrite ?Horig in * );
  simplify_eq;
  eexists _, _, _;
  (split; [reflexivity|]);
  cbn [files trace summary stdin];
  rewrite <- ?app_assoc; cbn [app];
  (split; [reflexivity|]);
  repeat (rewrite lookup_insert_eq || rewrite lookup_insert_ne by done);
  repeat split; eauto.
Qed.

Lemma process_file_spec (file : file_info) st original :
files st !! path file = Some original →
copy_outcome lib (path file) (backup_path_of timestamp (path file)) original
= Written →
copy_outcome lib (backup_path_of timestamp (path file)) (path file) original
= Written →
console lib (path file) 174 = None →
∃ o st' evs,
  process_file lib timestamp file st = (o, st')
  ∧ trace st'
    = trace st
      ++ EvCopy (path file) (backup_path_of timestamp (path file)) :: evs
  ∧ files st' !! backup_path_of timestamp (path file) = Some original
  ∧ match o with
    | Ret Updated => is_Some (files st' !! path file)
    | Ret (Unmapped _) => files st' !! path file = Some original
    | Ret (Failed _) | Raise _ =>
        files st' !! path file = Some original
        ∧ last evs
          = Some (EvCopy (backup_path_of timestamp (path file)) (path file))
    end.
Proof.
intros Horig Hcopy Hback Hprint.
pose proof (backup_path_fresh (path file)) as Hfresh.
destruct (try_body_spec file st original Horig Hcopy)
  as (o & st1 & evs & Hbody & Htrace & Hbackup & _ & _ & Hfile).
unfold process_file, try_except. rewrite Hbody.
destruct o as [v|e].
- exists (Ret v), st1, evs. destruct v; done.
- unfold print at 1. rewrite Hprint.
  unfold bind at 1, ret at 1. unfold bind at 1, path_exists at 1.
  rewrite bool_decide_eq_true_2 by (rewrite Hbackup; eauto).
  unfold bind at 1, bind at 1. rewrite (copy2_spec _ _ _ _ Hbackup Hback).
  unfold print, bind, ret, raise.
  destruct (console lib (path file) 178) as [e'|];
    eexists _, _, _; (split; [reflexivity|]);
    cbn [files trace]; rewrite Htrace, <- app_assoc; cbn [app];
    (split; [reflexivity|]);
    rewrite lookup_insert_ne by done; rewrite lookup_insert_eq;
    (repeat split; [done|]); by rewrite last_snoc.
Qed.

End StandardizeFacts.

(** C8 as the specification words it does not hold: restoration is not
    guaranteed on every failure path. When the disk fills up during the
    backup copy, the copy raises and leaves a backup cut short; the
    handler finds a backup and copies it over the file, which loses its
    content. When the disk fills up during the rewrite and the copy of the
    backup over the file fails as well, the exception leaves the handler
    and the file stays as the failed writes left it. When the console
    cannot encode the marks the script prints, the [print] after the
    rewrite raises, the [print] of the handler raises in turn, and the
    file stays rewritten with no copy back attempted. *)
Lemma C8_restore_counterexample :
  let file_path := "classroom-data/KOI-Classroom-Data.csv" in
  let backup_path := file_path +:+ ".backup_20250101_120000" in
  let st := {| files := {[ file_path := "koi_disposition,CONFIRMED" ]};
               summary := None; stdin := []; trace := [] |} in
  let cut_short := Standardize.process_file disk_full_at_backup
                     "20250101_120000" classroom_file st in
  let stuck := Standardize.process_file disk_full_at_restore
                 "20250101_120000" classroom_file st in
  let mute := Standardize.process_file narrow_console
                "20250101_120000" classroom_file st in
  (cut_short.1 = Ret (Standardize.Failed no_space)
   ∧ files cut_short.2 !! file_path = Some "koi_dis"
   ∧ trace cut_short.2
     = [EvCopy file_path backup_path; EvCopy backup_path file_path])
  ∧ (stuck.1 = Raise no_space
     ∧ files stuck.2 !! file_path = Some "koi"
     ∧ trace stuck.2
       = [EvCopy file_path backup_path; EvRewrite file_path;
          EvCopy backup_path file_path])
  ∧ (mute.1 = Raise (cannot_encode "\u2717")
     ∧ files mute.2 !! file_path = Some "koi_disposition,candidate"
     ∧ trace mute.2 = [EvCopy file_path backup_path; EvRewrite file_path]).
Proof. repeat split; by vm_compute. Qed.

(** C8. For a file the script processes, the first thing done to the
    disk is the backup copy, so it precedes any rewrite. When that copy
    goes through, the backup holds the original content. When processing
    then ends in an exception, be it from the table library, the disk or
    the console, and the first [print] of the handler and the copy of the
    backup over the file go through as well, that copy is the last thing
    done to the disk and the file holds the original content again,
    whether the handling ends in a failure verdict or the last [print] of
    the handler raises. When processing ends for unmapped values the file
    was never rewritten and still holds the original content. *)
Theorem C8_backup_before_rewrite_and_restore
    (lib : Standardize.Tables) (timestamp : string)
    (file : Standardize.file_info) (st : state) (original : string) :
  let backup := Standardize.backup_path_of timestamp (Standardize.path file) in
  files st !! Standardize.path file = Some original →
  Standardize.copy_outcome lib (Standardize.path file) backup original
  = Written →
  Standardize.copy_outcome lib backup (Standardize.path file) original
  = Written →
  Standardize.console lib (Standardize.path file) 174 = None →
  ∃ o st' evs,
    Standardize.process_file lib timestamp file st = (o, st')
    ∧ trace st' = trace st ++ EvCopy (Standardize.path file) backup :: evs
    ∧ files st' !! backup = Some original
    ∧ match o with
      | Ret Standardize.Updated =>
          is_Some (files st' !! Standardize.path file)
      | Ret (Standardize.Unmapped _) =>
          files st' !! Standardize.path file = Some original
      | Ret (Standardize.Failed _) | Raise _ =>
          files st' !! Standardize.path file = Some original
          ∧ last evs = Some (EvCopy backup (Standardize.path file))
      end.
Proof. intros backup Horig Hcopy Hback Hprint. by apply process_file_spec. Qed.

Lemma C8_backup_before_rewrite_and_restore_witness :
  let st := {| files := {[ "classroom-data/KOI-Classroom-Data.csv"
                           := "koi_disposition,CONFIRMED" ]};
               summary := None; stdin := []; trace := [] |} in
  ∃ e st',
    Standardize.process_file full_disk "20250101_120000" classroom_file st
    = (Ret (Standardize.Failed e), st')
    ∧ files st' !! "classroom-data/KOI-Classroom-Data.csv"
      = Some "koi_disposition,CONFIRMED"
    ∧ trace st'
      = [ EvCopy "classroom-data/KOI-Classroom-Data.csv"
            "classroom-data/KOI-Classroom-Data.csv.backup_20250101_120000";
          EvRewrite "classroom-data/KOI-Classroom-Data.csv";
          EvCopy "classroom-data/KOI-Classroom-Data.csv.backup_20250101_120000"
            "classroom-data/KOI-Classroom-Data.csv" ].
Proof.
  intros st.
  destruct (C8_backup_before_rewrite_and_restore full_disk "20250101_120000"
              classroom_file st "koi_disposition,CONFIRMED")
    as (o & st' & evs & Hrun & Htrace & Hbackup & Hfile);
    [by vm_compute|reflexivity|reflexivity|reflexivity|].
  assert (Hv : (Standardize.process_file full_disk "20250101_120000"
                  classroom_file st).1
               = Ret (Standardize.Failed no_space))
    by by vm_compute.
  assert (Ht : trace (Standardize.process_file full_disk "20250101_120000"
                        classroom_file st).2
               = [ EvCopy "classroom-data/KOI-Classroom-Data.csv"
                     "classroom-data/KOI-Classroom-Data.csv.backup_20250101_120000";
                   EvRewrite "classroom-data/KOI-Classroom-Data.csv";
                   EvCopy "classroom-data/KOI-Classroom-Data.csv.backup_20250101_120000"
                     "classroom-data/KOI-Classroom-Data.csv" ])
    by by vm_compute.
  rewrite Hrun in Hv, Ht. simpl in Hv, Ht. subst o.
  exists no_space, st'.
  split; [exact Hrun|]. split; [exact (proj1 Hfile)|exact Ht].
Defined.

(** * Further properties of the runner *)

(** ** Stripping *)

Lemma rev_app_append (s acc : string) :
  String.rev_app s acc = String.rev s +:+ acc.
Proof.
  unfold String.rev. revert acc.
  induction s as [|c s IH]; intros acc; [done|].
  cbn [String.rev_app]. rewrite IH, (IH (String c "")).
  by rewrite string_app_assoc.
Qed.

Lemma rev_cons (c : ascii) (s : string) :
  String.rev (String c s) = String.rev s +:+ String c "".
Proof. unfold String.rev at 1. cbn [String.rev_app]. apply rev_app_append. Qed.

Lemma rev_snoc (c : ascii) (s : string) :
  String.rev (s +:+ String c "") = String c (String.rev s).
Proof.
  induction s as [|d s IH]; [done|].
  change (String d s +:+ String c "") with (String d (s +:+ String c "")).
  by rewrite !rev_cons, IH.
Qed.

Lemma lstrip_snoc (c : ascii) (s : string) :
  Py.lstrip (s +:+ String c "")
  = match Py.lstrip s with
    | EmptyString => if Py.isspace c then EmptyString else String c EmptyString
    | r => r +:+ String c ""
    end.
Proof.
  induction s as [|d s IH].
  - simpl. by destruct (Py.isspace c).
  - change (String d s +:+ String c "") with (String d (s +:+ String c "")).
    cbn [Py.lstrip]. by destruct (Py.isspace d).
Qed.

(** The right strip written with two reversals is [rstrip_spec]. *)
Lemma rstrip_rev (s : string) :
  String.rev (Py.lstrip (String.rev s)) = rstrip_spec s.
Proof.
  induction s as [|c s IH]; [done|].
  rewrite rev_cons, lstrip_snoc. cbn [rstrip_spec]. rewrite <- IH.
  destruct (Py.lstrip (String.rev s)) as [|d r] eqn:Hl.
  - by destruct (Py.isspace c).
  - rewrite rev_snoc.
    destruct (String.rev (String d r)) eqn:Hrev; [|done].
    apply (f_equal String.rev) in Hrev. by rewrite rev_involutive in Hrev.
Qed.

Lemma strip_spec (s : string) : Py.strip s = rstrip_spec (Py.lstrip s).
Proof. unfold Py.strip. apply rstrip_rev. Qed.

Lemma rstrip_spec_idem (s : string) : rstrip_spec (rstrip_spec s) = rstrip_spec s.
Proof.
  induction s as [|c s IH]; [done|].
  cbn [rstrip_spec]. destruct (rstrip_spec s) as [|d r] eqn:Hr.
  - destruct (Py.isspace c) eqn:Hc; [done|]. cbn [rstrip_spec]. by rewrite Hc.
  - cbn [rstrip_spec] in *. by rewrite IH.
Qed.

Lemma lstrip_head (s : string) :
  match Py.lstrip s with
  | String c _ => Py.isspace c = false
  | EmptyString => True
  end.
Proof.
  induction s as [|c s IH]; [done|].
  cbn [Py.lstrip]. by destruct (Py.isspace c) eqn:Hc.
Qed.

Lemma lstrip_rstrip_spec (s : string) :
  Py.lstrip (rstrip_spec (Py.lstrip s)) = rstrip_spec (Py.lstrip s).
Proof.
  pose proof (lstrip_head s) as Hhead.
  destruct (Py.lstrip s) as [|c t]; [done|].
  cbn [rstrip_spec]. destruct (rstrip_spec t); rewrite ?Hhead;
    cbn [Py.lstrip]; by rewrite Hhead.
Qed.

(** Stripping twice is stripping once. *)
Lemma strip_idem (s : string) : Py.strip (Py.strip s) = Py.strip s.
Proof.
  rewrite (strip_spec (Py.strip s)), (strip_spec s).
  by rewrite lstrip_rstrip_spec, rstrip_spec_idem.
Qed.

(** ** More on the worker *)

Lemma assoc_get_set_eq {A} (k : string) (v : A) (l : list (string * A)) :
  assoc_get k (assoc_set k v l) = Some v.
Proof.
  induction l as [|[k' v'] l IH]; simpl.
  - by rewrite decide_True.
  - destruct (decide (k' = k)); simpl.
    + by rewrite decide_True.
    + by rewrite decide_False.
Qed.

Lemma assoc_get_set_ne {A} (k k0 : string) (v : A) (l : list (string * A)) :
  k0 ≠ k → assoc_get k0 (assoc_set k v l) = assoc_get k0 l.
Proof.
  intros Hne. induction l as [|[k' v'] l IH]; simpl.
  - by rewrite decide_False.
  - destruct (decide (k' = k)) as [->|]; simpl.
    + by rewrite !decide_False.
    + by rewrite IH.
Qed.

Lemma worker_files_frame (lk : Lightkurve) kid dir st o st' p :
  download_lightkurve_data lk kid dir st = (o, st') →
  p ≠ OsPath.join dir (artifact_name (Py.strip (Py.str kid))) →
  files st' !! p = files st !! p.
Proof.
  unfold download_lightkurve_data, try_block, lk_search, lk_download,
    df_to_csv, error_result.
  run_m; intros Heq Hp; simplify_eq; simpl; try done;
    by rewrite lookup_insert_ne.
Qed.

Lemma worker_downloads (lk : Lightkurve) kid dir st first rest lc df :
  let id_clean := Py.strip (Py.str kid) in
  let path := OsPath.join dir (artifact_name id_clean) in
  let df' := set_scalar "kepler_id" (Str id_clean) df in
  files st !! path = None →
  search_lightcurve lk ("KIC " +:+ id_clean) = Ret (first :: rest) →
  download lk first = Ret lc →
  to_pandas lk lc = Ret df →
  disk_write lk path (to_csv lk df') = Written →
  download_lightkurve_data lk kid dir st
  = (Ret (downloaded_result id_clean path),
     set_files (<[path := to_csv lk df']> (files st))
       (logged [EvSearch ("KIC " +:+ id_clean); EvDownload;
                EvWriteArtifact path] st)).
Proof.
  intros id_clean path df' Hfile Hsearch Hdown Hpandas Hwrite.
  unfold download_lightkurve_data, try_except, try_block, lk_search,
    lk_download, df_to_csv.
  fold id_clean. fold path. unfold_m. rewrite Hfile. simpl.
  rewrite Hsearch. simpl. rewrite Hdown. simpl. rewrite Hpandas. simpl.
  fold df'. rewrite Hwrite. unfold downloaded_result, logged. simpl.
  by rewrite <- !app_assoc.
Qed.

(** X1. A download that goes through writes one file, the artifact named
    from the stripped identifier, holding the table as downloaded with a
    [kepler_id] column set to that identifier in every row; every other
    column is as downloaded, and the row returned is "Downloaded". *)
Theorem X1_download_writes_the_artifact
    (lk : Lightkurve) (kid : Py.value) (dir : string) (st : state)
    (first : hit lk) (rest : list (hit lk)) (lc : curve lk) (df : DataFrame) :
  let id_clean := Py.strip (Py.str kid) in
  let path := OsPath.join dir (artifact_name id_clean) in
  let df' := set_scalar "kepler_id" (Str id_clean) df in
  files st !! path = None →
  search_lightcurve lk ("KIC " +:+ id_clean) = Ret (first :: rest) →
  download lk first = Ret lc →
  to_pandas lk lc = Ret df →
  disk_write lk path (to_csv lk df') = Written →
  ∃ st',
    download_lightkurve_data lk kid dir st
    = (Ret {| kepler_id := Str id_clean; success := true;
              output_file := Some path; status := "Downloaded" |}, st')
    ∧ files st' = <[path := to_csv lk df']> (files st)
    ∧ trace st' = trace st ++ [EvSearch ("KIC " +:+ id_clean); EvDownload;
                               EvWriteArtifact path]
    ∧ get_column "kepler_id" df' = Ret (replicate (nrows df) (Str id_clean))
    ∧ ∀ c, c ≠ "kepler_id" → get_column c df' = get_column c df.
Proof.
  intros id_clean path df' Hfile Hsearch Hdown Hpandas Hwrite.
  eexists. split.
  { by apply (worker_downloads lk kid dir st first rest lc df). }
  split; [done|]. split; [done|]. split.
  - unfold get_column, df', set_scalar, set_column. cbn [columns nrows].
    by rewrite assoc_get_set_eq.
  - intros c Hc. unfold get_column, df', set_scalar, set_column.
    cbn [columns]. by rewrite assoc_get_set_ne.
Qed.

Lemma X1_download_writes_the_artifact_witness :
  ∃ st',
    download_lightkurve_data sample_client (Str " 1 ") output_dir empty_state
    = (Ret {| kepler_id := Str "1"; success := true;
              output_file := Some "lightkurve_data/kepler_1_lightkurve.csv";
              status := "Downloaded" |}, st')
    ∧ files st'
      = {[ "lightkurve_data/kepler_1_lightkurve.csv" := "time,flux,kepler_id" ]}.
Proof.
  destruct (X1_download_writes_the_artifact sample_client (Str " 1 ")
              output_dir empty_state tt [] tt
              {| nrows := 2;
                 columns := [("time", [Int 0; Int 1]);
                             ("flux", [Int 7; Int 9])] |})
    as (st' & Hrun & Hfiles & _); try reflexivity.
  exists st'. split; [exact Hrun|]. rewrite Hfiles. reflexivity.
Defined.

(** X2. Whatever the archive and the disk do, a call of the worker leaves
    every file but its own artifact as it was, and does not touch the
    summary file or standard input. *)
Theorem X2_worker_touches_only_its_artifact
    (lk : Lightkurve) (kid : Py.value) (dir : string) (st : state)
    (p : string) :
  p ≠ OsPath.join dir (artifact_name (Py.strip (Py.str kid))) →
  let st' := (download_lightkurve_data lk kid dir st).2 in
  files st' !! p = files st !! p
  ∧ summary st' = summary st
  ∧ stdin st' = stdin st.
Proof.
  intros Hp st'.
  destruct (download_lightkurve_data lk kid dir st) as [o st1] eqn:Hrun.
  subst st'. cbn [snd]. split.
  - by eapply worker_files_frame.
  - by destruct (worker_frame _ _ _ _ _ _ Hrun) as (? & ? & _).
Qed.

Lemma X2_worker_touches_only_its_artifact_witness :
  let st := {| files := {[ "lightkurve_data/kepler_2_lightkurve.csv" := "old" ]};
               summary := Some Unparsable; stdin := ["kepid"]; trace := [] |} in
  let st' := (download_lightkurve_data sample_client (Int 1) output_dir st).2 in
  files st' !! "lightkurve_data/kepler_2_lightkurve.csv" = Some "old"
  ∧ summary st' = Some Unparsable
  ∧ stdin st' = ["kepid"].
Proof.
  intros st.
  refine (X2_worker_touches_only_its_artifact sample_client (Int 1)
            output_dir st "lightkurve_data/kepler_2_lightkurve.csv" _).
  by vm_compute.
Defined.

(** X3. When the write of the artifact raises after leaving some text at
    the path, the call reports the error; the next call for the same
    identifier finds that text, takes it for the artifact and reports
    success with "Skipped (already exists)", fetching nothing. *)
Theorem X3_debris_is_taken_for_the_artifact
    (lk : Lightkurve) (kid : Py.value) (dir : string) (st : state)
    (first : hit lk) (rest : list (hit lk)) (lc : curve lk) (df : DataFrame)
    (e : exn) (junk : string) :
  let id_clean := Py.strip (Py.str kid) in
  let path := OsPath.join dir (artifact_name id_clean) in
  let df' := set_scalar "kepler_id" (Str id_clean) df in
  files st !! path = None →
  search_lightcurve lk ("KIC " +:+ id_clean) = Ret (first :: rest) →
  download lk first = Ret lc →
  to_pandas lk lc = Ret df →
  disk_write lk path (to_csv lk df') = WriteFailed e (Some junk) →
  ∃ r1 st1,
    download_lightkurve_data lk kid dir st = (Ret r1, st1)
    ∧ success r1 = false
    ∧ status r1 = "Error: " +:+ exn_message e
    ∧ files st1 !! path = Some junk
    ∧ download_lightkurve_data lk kid dir st1
      = (Ret {| kepler_id := Str id_clean; success := true;
                output_file := Some path;
                status := "Skipped (already exists)" |}, st1).
Proof.
  intros id_clean path df' Hfile Hsearch Hdown Hpandas Hwrite.
  eexists _, _. split.
  { by apply (worker_reports_write_error lk kid dir st first rest lc df e junk). }
  split; [done|]. split; [done|].
  assert (Hjunk : files (set_files (<[path := junk]> (files st))
                    (logged [EvSearch ("KIC " +:+ id_clean); EvDownload;
                             EvWriteArtifact path] st)) !! path = Some junk).
  { cbn [set_files files]. apply lookup_insert_eq. }
  split; [exact Hjunk|].
  apply worker_skips_existing. fold id_clean. fold path. rewrite Hjunk. eauto.
Qed.

Lemma X3_debris_is_taken_for_the_artifact_witness :
  ∃ r1 st1,
    download_lightkurve_data flaky_disk_client (Int 7) output_dir empty_state
    = (Ret r1, st1)
    ∧ success r1 = false
    ∧ files st1 !! "lightkurve_data/kepler_7_lightkurve.csv" = Some "time,kep"
    ∧ download_lightkurve_data flaky_disk_client (Int 7) output_dir st1
      = (Ret {| kepler_id := Str "7"; success := true;
                output_file := Some "lightkurve_data/kepler_7_lightkurve.csv";
                status := "Skipped (already exists)" |}, st1).
Proof.
  destruct (X3_debris_is_taken_for_the_artifact flaky_disk_client (Int 7)
              output_dir empty_state tt [] tt
              {| nrows := 1; columns := [("time", [Int 0])] |}
              (Exception "OSError" "No space left on device") "time,kep")
    as (r1 & st1 & Hrun & Hfail & _ & Hjunk & Hnext); try reflexivity.
  exists r1, st1. done.
Defined.

(** X4. The worker does not tell an identifier from its blank-padded
    forms: on the same store, a call with the stripped identifier does
    exactly what a call with the padded one does. *)
Theorem X4_worker_ignores_padding
    (lk : Lightkurve) (s : string) (dir : string) (st : state) :
  download_lightkurve_data lk (Str (Py.strip s)) dir st
  = download_lightkurve_data lk (Str s) dir st.
Proof.
  unfold download_lightkurve_data. cbn [Py.str]. by rewrite strip_idem.
Qed.

(** ** More on the dispatcher *)

Section DispatcherExtras.

Variable env : Env.

Lemma collect_app interval o1 o2 c results st :
  collect env interval (o1 ++ o2) c results st
  = bind (collect env interval o1 c results)
      (λ r, collect env interval o2 (c + length o1) r) st.
Proof.
  revert c results st. induction o1 as [|kid o1 IH]; intros c results st.
  - simpl. unfold bind, ret. by rewrite Nat.add_0_r.
  - cbn [app collect length]. unfold bind.
    destruct (run_future env kid st) as [[o|e] st1]; [|done].
    destruct (checkpoint interval (c + 1) _ st1) as [[[]|e] st2]; [|done].
    rewrite IH. unfold bind.
    by replace (c + 1 + length o1) with (c + S (length o1)) by lia.
Qed.

Lemma last_checkpoint_count interval n :
  0 < interval →
  last (checkpoint_counts interval n)
  = if decide (interval ≤ n)%nat then Some (interval * (n / interval)) else None.
Proof.
  intros Hpos. unfold checkpoint_counts.
  induction n as [|n IH].
  - simpl. by rewrite decide_False by lia.
  - rewrite seq_S, filter_app. cbn [Nat.add].
    rewrite filter_cons, filter_nil.
    pose proof (Nat.div_mod_eq (S n) interval) as Hdm.
    pose proof (Nat.mod_upper_bound (S n) interval) as Hub.
    destruct (decide (S n `mod` interval = 0)) as [Hz|Hnz].
    + rewrite last_snoc. rewrite decide_True.
      * f_equal. lia.
      * destruct (S n / interval) eqn:Hq; nia.
    + rewrite app_nil_r, IH.
      assert (Hq : S n / interval = n / interval).
      { symmetry. apply (Nat.div_unique (S n) interval (n / interval)
                           (S (n `mod` interval))).
        - pose proof (Nat.mod_upper_bound n interval).
          destruct (decide (S (n `mod` interval) = interval)) as [Heq|]; [|lia].
          exfalso. apply Hnz.
          pose proof (Nat.div_mod_eq n interval) as Hn.
          replace (S n) with (interval * S (n / interval)) by nia.
          rewrite Nat.mul_comm. apply Nat.Div0.mod_mul.
        - pose proof (Nat.div_mod_eq n interval). lia. }
      rewrite Hq.
      destruct (decide (interval ≤ n)%nat), (decide (interval ≤ S n)%nat); try done;
        try lia.
      exfalso. apply Hnz. replace (S n) with interval by lia.
      apply Nat.Div0.mod_same.
Qed.

Lemma dispatch_rows n kepler_ids results st :
  ∃ new st',
    dispatch env (S n) kepler_ids results st = (Ret (results ++ new), st')
    ∧ summary_ids new = Py.strip <$> as_completed env kepler_ids.
Proof.
  unfold dispatch, bind. rewrite submit_all_spec.
  match goal with
  | |- context [collect env (S n) ?o 0 results ?s] =>
      destruct (collect_ids env n o 0 results s) as (new & st' & Hrun & Hids)
  end.
  exists new, st'. by rewrite Hrun.
Qed.

End DispatcherExtras.

(** X5. With a positive interval the pool returns the rows it was given,
    in their order, followed by one row per submitted identifier in the
    order of completion, each filed under the stripped identifier; the
    completion order is a rearrangement of the submitted list. *)
Theorem X5_pool_appends_one_row_each
    (env : Env) (interval : nat) (kepler_ids : list string)
    (results : list FetchResult) (st : state) :
  0 < interval →
  ∃ new st',
    dispatch env interval kepler_ids results st = (Ret (results ++ new), st')
    ∧ summary_ids new = Py.strip <$> as_completed env kepler_ids
    ∧ as_completed env kepler_ids ≡ₚ kepler_ids.
Proof.
  intros Hpos. destruct interval as [|n]; [lia|].
  destruct (dispatch_rows env n kepler_ids results st)
    as (new & st' & Hrun & Hids).
  exists new, st'. split; [done|]. split; [done|]. apply as_completed_perm.
Qed.

Lemma X5_pool_appends_one_row_each_witness :
  ∃ new st',
    dispatch (sample_env []) 50 ["1"; " 2"; "9"] [] empty_state
    = (Ret new, st')
    ∧ summary_ids new = ["9"; "2"; "1"].
Proof.
  destruct (X5_pool_appends_one_row_each (sample_env []) 50
              ["1"; " 2"; "9"] [] empty_state)
    as (new & st' & Hrun & Hids & _); [lia|].
  exists new, st'. split; [exact Hrun|]. rewrite Hids. reflexivity.
Defined.

(** X6. With a positive interval N, once the loop has handled the first
    k completions the summary file holds the rows collected up to the
    last multiple of N (or what it held at the start when k < N): fewer
    than N of the rows collected so far are missing from the disk. The
    loop then goes on from that state with the count k. *)
Theorem X6_checkpoint_loss_bound
    (env : Env) (interval : nat) (done rest : list string)
    (results : list FetchResult) (st : state) :
  0 < interval →
  ∃ new st',
    collect env interval done 0 results st = (Ret (results ++ new), st')
    ∧ length new = length done
    ∧ summary st'
      = (if decide (interval ≤ length done)%nat
         then Some (Rows (take (length results
                                + interval * (length done / interval))
                            (results ++ new)))
         else summary st)
    ∧ length done - interval * (length done / interval) < interval
    ∧ collect env interval (done ++ rest) 0 results st
      = collect env interval rest (length done) (results ++ new) st'.
Proof.
  intros Hpos. destruct interval as [|n]; [lia|].
  destruct (collect_spec env n done 0 results st)
    as (new & st' & Hrun & Hlen & _ & _ & Hsum).
  exists new, st'. split; [done|]. split; [done|]. split; [|split].
  - rewrite Hsum, checkpoint_rows_shift, fmap_last, Hlen.
    change (filter (λ k, (0 + k) `mod` S n = 0) (seq 1 (length done)))
      with (checkpoint_counts (S n) (length done)).
    rewrite last_checkpoint_count by lia.
    by destruct (decide (S n ≤ length done)%nat).
  - pose proof (Nat.div_mod_eq (length done) (S n)).
    pose proof (Nat.mod_upper_bound (length done) (S n)). lia.
  - rewrite collect_app. unfold bind. by rewrite Hrun.
Qed.

Lemma X6_checkpoint_loss_bound_witness :
  ∃ new st',
    collect (sample_env []) 2 ["1"; "2"; "9"] 0 [] empty_state
    = (Ret new, st')
    ∧ summary st' = Some (Rows (take 2 new)).
Proof.
  destruct (X6_checkpoint_loss_bound (sample_env []) 2 ["1"; "2"; "9"] []
              [] empty_state)
    as (new & st' & Hrun & _ & Hsum & _); [lia|].
  exists new, st'. split; [exact Hrun|]. exact Hsum.
Defined.

(** ** More on the builder and on whole runs *)

(** The on-disk pass in general: the rows it adds stand for files that
    exist, and the work list it leaves is taken from the one it got. *)
Lemma file_pass_facts (fs : gmap string string) (kepler_ids : list string)
    (results : list FetchResult) :
  ∃ existing work,
    file_pass fs kepler_ids results
    = (work, results ++ (found_existing <$> existing))
    ∧ Forall (λ f, is_Some (fs !! f)) existing
    ∧ existing `sublist_of` (artifact_path <$> kepler_ids)
    ∧ work `sublist_of` kepler_ids
    ∧ (existing = [] → work = kepler_ids).
Proof.
  unfold file_pass.
  set (files_to_check :=
         (λ kid, OsPath.join output_dir (artifact_name kid)) <$> kepler_ids).
  assert (Hex : Forall (λ f, is_Some (fs !! f))
                  (filter (λ f, is_Some (fs !! f)) files_to_check)).
  { apply Forall_forall. by intros f [? _]%list_elem_of_filter. }
  assert (Hsub : filter (λ f, is_Some (fs !! f)) files_to_check
                 `sublist_of` (artifact_path <$> kepler_ids)).
  { apply sublist_filter. }
  destruct (filter (λ f, is_Some (fs !! f)) files_to_check)
    as [|f existing] eqn:Hfilter.
  - exists [], kepler_ids. rewrite app_nil_r. repeat split; done.
  - eexists (f :: existing), _. split; [reflexivity|].
    split; [done|]. split; [done|]. split; [apply sublist_filter|done].
Qed.

Lemma build_work_list_facts (all : list string) (st : state) :
  ∃ existing work,
    build_work_list all st
    = (Ret (work, prior_rows st ++ (found_existing <$> existing)), st)
    ∧ Forall (λ f, is_Some (files st !! f)) existing
    ∧ existing `sublist_of`
        (artifact_path
           <$> filter (λ kid, kid ∉ summary_ids (prior_rows st)) all)
    ∧ work `sublist_of` filter (λ kid, kid ∉ summary_ids (prior_rows st)) all
    ∧ (existing = []
       → work = filter (λ kid, kid ∉ summary_ids (prior_rows st)) all).
Proof.
  rewrite build_work_list_spec. fold (prior_rows st).
  destruct (file_pass_facts (files st)
              (filter (λ kid, kid ∉ summary_ids (prior_rows st)) all)
              (prior_rows st))
    as (existing & work & Hpass & Hex & Hsubex & Hsub & Hnone).
  exists existing, work. by rewrite Hpass.
Qed.

(** X7. The builder changes nothing in the store and never raises. Its
    work list is taken from the input in the input's order and holds no
    identifier of the prior summary; its rows are the prior rows, in
    their order, followed by synthetic rows, each of them a success with
    status "Found existing file" that points to a file that exists. *)
Theorem X7_builder_output (all : list string) (st : state) :
  ∃ work synthetic,
    build_work_list all st = (Ret (work, prior_rows st ++ synthetic), st)
    ∧ work `sublist_of` all
    ∧ (∀ kid, kid ∈ work → kid ∉ summary_ids (prior_rows st))
    ∧ Forall (λ r, success r = true
                   ∧ status r = "Found existing file"
                   ∧ ∃ f, output_file r = Some f
                          ∧ kepler_id r = Str (id_of_file f)
                          ∧ is_Some (files st !! f)) synthetic.
Proof.
  destruct (build_work_list_facts all st)
    as (existing & work & Hrun & Hex & _ & Hsub & _).
  exists work, (found_existing <$> existing). split; [done|].
  split; [|split].
  - etrans; [exact Hsub|]. apply sublist_filter.
  - intros kid Hin. eapply elem_of_sublist in Hin; [|exact Hsub].
    by apply list_elem_of_filter in Hin as [? _].
  - apply Forall_fmap. eapply Forall_impl; [exact Hex|].
    intros f Hf. cbn. repeat split; eauto.
Qed.

(** X8. A resumed run does not retry what failed: an identifier that the
    prior summary records, be it with success false, is not in the work
    list. *)
Theorem X8_failed_rows_are_not_retried
    (all : list string) (st : state) (r : FetchResult) :
  r ∈ prior_rows st →
  success r = false →
  ∃ work results,
    build_work_list all st = (Ret (work, results), st)
    ∧ r ∈ results
    ∧ Py.str (kepler_id r) ∉ work.
Proof.
  intros Hr _.
  destruct (build_work_list_facts all st)
    as (existing & work & Hrun & _ & _ & Hsub & _).
  eexists work, _. split; [exact Hrun|]. split.
  - apply elem_of_app. by left.
  - intros Hin. eapply elem_of_sublist in Hin; [|exact Hsub].
    apply list_elem_of_filter in Hin as [Hnot _]. apply Hnot.
    unfold summary_ids. apply list_elem_of_fmap. eauto.
Qed.

Lemma X8_failed_rows_are_not_retried_witness :
  let failed := {| kepler_id := Int 2; success := false; output_file := None;
                   status := "No light curve found" |} in
  let st := {| files := ∅; summary := Some (Rows [failed]); stdin := [];
               trace := [] |} in
  ∃ work results,
    build_work_list ["1"; "2"] st = (Ret (work, results), st)
    ∧ failed ∈ results
    ∧ "2" ∉ work.
Proof.
  intros failed st.
  refine (X8_failed_rows_are_not_retried ["1"; "2"] st failed _ _).
  - apply list_elem_of_here.
  - reflexivity.
Defined.

Section RunExtras.

Variable env : Env.

(** A run with a positive interval, from the identifier column on: what
    it returns and what it leaves in the summary file. *)
Lemma run_with_column_facts interval df_input koi_column cells st :
  0 < interval →
  get_column koi_column df_input = Ret cells →
  ∃ existing work new st',
    run_with_column env interval df_input koi_column st
    = (match (prior_rows st ++ (found_existing <$> existing)) ++ new with
       | [] => Raise (Exception "KeyError" "'success'")
       | _ :: _ => Ret tt
       end, st')
    ∧ summary st'
      = Some (Rows ((prior_rows st ++ (found_existing <$> existing)) ++ new))
    ∧ length new = length work
    ∧ existing `sublist_of`
        (artifact_path
           <$> filter (λ kid, kid ∉ summary_ids (prior_rows st))
                 (Py.str <$> cells))
    ∧ work `sublist_of`
        filter (λ kid, kid ∉ summary_ids (prior_rows st)) (Py.str <$> cells)
    ∧ (existing = []
       → work = filter (λ kid, kid ∉ summary_ids (prior_rows st))
                  (Py.str <$> cells)).
Proof.
  intros Hpos Hcol. unfold run_with_column, bind, lift. rewrite Hcol.
  destruct (build_work_list_facts (Py.str <$> cells) st)
    as (existing & work & Hrun & _ & Hsubex & Hsub & Hnone).
  rewrite Hrun. cbn [fst snd].
  destruct (dispatch_and_save_spec env interval work
              (prior_rows st ++ (found_existing <$> existing)) st Hpos)
    as (new & st' & Hsave & Hlen & _ & Hsum).
  exists existing, work, new, st'. by rewrite Hsave.
Qed.

End RunExtras.

(** X9. A run writes its summary and then ends normally, unless it has
    no row at all to report: with an empty identifier column and no prior
    rows it writes an empty summary and ends with the [KeyError] of
    [summary_df['success']]; in every other case it returns. *)
Theorem X9_run_without_rows_raises
    (env : Env) (df_input : DataFrame) (cells : list Py.value) (st : state) :
  read_input env = Ret df_input →
  "kepid" ∈ column_names df_input →
  get_column "kepid" df_input = Ret cells →
  ∃ rows st',
    main env st
    = (if decide (cells = [] ∧ prior_rows st = [])
       then Raise (Exception "KeyError" "'success'")
       else Ret tt, st')
    ∧ summary st' = Some (Rows rows)
    ∧ (rows = [] ↔ cells = [] ∧ prior_rows st = []).
Proof.
  intros Hread Hcol Hcells. unfold main.
  rewrite (main_with_column env save_interval df_input st Hread Hcol).
  destruct (run_with_column_facts env save_interval df_input "kepid" cells
              (logged [using_column "kepid"] st))
    as (existing & work & new & st' & Hrun & Hsum & Hlen & Hsubex & Hsub
        & Hnone);
    [unfold save_interval; lia|done|].
  change (prior_rows (logged [using_column "kepid"] st))
    with (prior_rows st) in *.
  set (rows := (prior_rows st ++ (found_existing <$> existing)) ++ new) in *.
  assert (Hiff : rows = [] ↔ cells = [] ∧ prior_rows st = []).
  { subst rows. split.
    - intros Hnil. apply app_eq_nil in Hnil as [Hnil ->].
      apply app_eq_nil in Hnil as [Hprior Hsyn].
      apply fmap_nil_inv in Hsyn. specialize (Hnone Hsyn).
      destruct work; [|done]. rewrite Hprior in Hnone |- *.
      split; [|done]. symmetry in Hnone.
      destruct cells as [|cell cells']; [done|].
      cbn [fmap list_fmap] in Hnone.
      rewrite filter_cons_True in Hnone by apply not_elem_of_nil. done.
    - intros [-> Hprior]. rewrite Hprior in *.
      cbn [fmap list_fmap] in Hsub, Hsubex.
      rewrite filter_nil in Hsub, Hsubex. cbn [fmap list_fmap] in Hsubex.
      apply sublist_nil_r in Hsub. apply sublist_nil_r in Hsubex.
      subst work existing. by destruct new. }
  exists rows, st'. rewrite Hrun. split; [|done].
  destruct (decide (cells = [] ∧ prior_rows st = [])) as [Hd|Hd].
  - apply Hiff in Hd. by rewrite Hd.
  - destruct rows; [|done]. exfalso. by apply Hd, Hiff.
Qed.

Lemma X9_run_without_rows_raises_witness :
  ∃ st',
    main (sample_env []) empty_state
    = (Raise (Exception "KeyError" "'success'"), st')
    ∧ summary st' = Some (Rows []).
Proof.
  destruct (X9_run_without_rows_raises (sample_env [])
              {| nrows := 0; columns := [("kepid", [])] |} [] empty_state)
    as (rows & st' & Hrun & Hsum & Hiff); try reflexivity.
  { unfold column_names. simpl. apply list_elem_of_here. }
  assert (Hrows : rows = []) by by apply Hiff.
  subst rows. exists st'. split; [exact Hrun|exact Hsum].
Defined.

Section CleanRuns.

Variable env : Env.

Lemma clean_run_ids interval df_input koi_column cells st :
  0 < interval →
  get_column koi_column df_input = Ret cells →
  Forall clean_identifier (Py.str <$> cells) →
  ∃ rows,
    summary (run_with_column env interval df_input koi_column st).2
    = Some (Rows (prior_rows st ++ rows))
    ∧ summary_ids rows
      ≡ₚ filter (λ kid, kid ∉ summary_ids (prior_rows st)) (Py.str <$> cells).
Proof.
  intros Hpos Hcol Hclean.
  unfold run_with_column, bind, lift. rewrite Hcol.
  rewrite build_work_list_spec. fold (prior_rows st).
  set (kept := filter (λ kid, kid ∉ summary_ids (prior_rows st))
                 (Py.str <$> cells)).
  assert (Hkept_clean : Forall clean_identifier kept).
  { apply Forall_forall. intros kid [_ Hin]%list_elem_of_filter.
    by eapply Forall_forall in Hclean. }
  destruct (file_pass_clean (files st) kept (prior_rows st) Hkept_clean)
    as (on_disk & work & rows & Hpass & Hrows & Hperm).
  rewrite Hpass. cbn [fst snd].
  destruct interval as [|n]; [lia|].
  destruct (dispatch_spec env n work (prior_rows st ++ rows) st)
    as (new & st1 & Hdisp & _).
  assert (Hnew : summary_ids new ≡ₚ Py.strip <$> work)
    by by eapply dispatch_ids.
  exists (rows ++ new). split.
  { unfold dispatch_and_save, bind. rewrite Hdisp. unfold write_summary.
    rewrite <- app_assoc. by destruct (prior_rows st ++ rows ++ new). }
  assert (Hwork : Py.strip <$> work = work).
  { assert (Hw : Forall clean_identifier work).
    { apply Forall_forall. intros kid Hin.
      eapply Forall_forall in Hkept_clean; [done|].
      rewrite <- Hperm. apply elem_of_app. by right. }
    clear -Hw. induction Hw as [|kid l [Hkid _] _ IH]; [done|].
    cbn [fmap list_fmap]. by rewrite Hkid, IH. }
  rewrite Hwork in Hnew. unfold summary_ids in *.
  by rewrite fmap_app, Hrows, Hnew.
Qed.

End CleanRuns.

(** X10. For identifiers that [strip] leaves alone and that their
    artifact's file name gives back, a run with a positive interval loses
    and invents nothing: the summary it leaves is the prior rows, in
    their order, followed by rows whose identifiers are, up to order,
    the input identifiers that the prior summary did not hold. *)
Theorem X10_clean_run_accounts_for_every_identifier
    (env : Env) (interval : nat) (df_input : DataFrame) (koi_column : string)
    (cells : list Py.value) (st : state) :
  0 < interval →
  get_column koi_column df_input = Ret cells →
  Forall clean_identifier (Py.str <$> cells) →
  ∃ rows,
    summary (run_with_column env interval df_input koi_column st).2
    = Some (Rows (prior_rows st ++ rows))
    ∧ summary_ids rows
      ≡ₚ filter (λ kid, kid ∉ summary_ids (prior_rows st)) (Py.str <$> cells).
Proof. apply clean_run_ids. Qed.

Lemma X10_clean_run_accounts_for_every_identifier_witness :
  let prior := {| kepler_id := Int 2; success := false; output_file := None;
                  status := "No light curve found" |} in
  let st := {| files := ∅; summary := Some (Rows [prior]); stdin := [];
               trace := [] |} in
  ∃ rows,
    summary (run_with_column (sample_env []) 50
               {| nrows := 3; columns := [("kepid", [Int 1; Int 2; Int 9])] |}
               "kepid" st).2
    = Some (Rows (prior :: rows))
    ∧ summary_ids rows ≡ₚ ["1"; "9"].
Proof.
  intros prior st.
  destruct (X10_clean_run_accounts_for_every_identifier (sample_env []) 50
              {| nrows := 3; columns := [("kepid", [Int 1; Int 2; Int 9])] |}
              "kepid" [Int 1; Int 2; Int 9] st)
    as (rows & Hsum & Hids); [lia|reflexivity| |].
  { repeat constructor; by vm_compute. }
  exists rows. split; [exact Hsum|]. rewrite Hids. by vm_compute.
Defined.

(** X11. The file name of an artifact gives a catalog number back: for an
    identifier made of decimal digits, the identifier taken from the path
    of its artifact is the identifier itself, and [strip] leaves it
    alone. *)
Theorem X11_catalog_number_round_trip (b : string) :
  all_digits b = true →
  id_of_file (OsPath.join output_dir (artifact_name b)) = b
  ∧ Py.strip b = b.
Proof.
  intros Hb. destruct (catalog_number_clean b Hb) as [Hstrip Hid]. done.
Qed.

Lemma X11_catalog_number_round_trip_witness :
  id_of_file "lightkurve_data/kepler_10797460_lightkurve.csv" = "10797460"
  ∧ Py.strip "10797460" = "10797460".
Proof.
  refine (X11_catalog_number_round_trip "10797460" _). reflexivity.
Defined.

(** * Further properties of the label standardisation script *)

Section StandardizeExtras.

Import Standardize.

Variable lib : Tables.
Variable timestamp : string.

Lemma process_file_frame (file : file_info) st p :
  p ≠ path file →
  p ≠ backup_path_of timestamp (path file) →
  let st' := (process_file lib timestamp file st).2 in
  files st' !! p = files st !! p
  ∧ summary st' = summary st ∧ stdin st' = stdin st.
Proof.
  intros Hp Hb.
  unfold process_file, try_except, try_body, copy2, print, read_text,
    read_file, write_text, bind, lift, emit, ret, raise, path_exists,
    set_files.
  cbn [files trace summary stdin].
  repeat (step_match; cbn [files trace summary stdin snd] in * );
    simplify_eq; cbn [files trace summary stdin snd];
    repeat (rewrite lookup_insert_ne by done); done.
Qed.

(** Under a console that takes every line, a [print] is a step that
    does nothing. *)
Lemma print_quiet (file_path : string) (line : nat) :
  (∀ line, console lib file_path line = None) →
  print lib file_path line = ret tt.
Proof. intros Hquiet. unfold print. by rewrite Hquiet. Qed.

Lemma bind_ret_tt {A} (k : unit → M A) : bind (ret tt) k = k tt.
Proof. reflexivity. Qed.

Lemma process_file_unmapped (file : file_info) st original df cells :
  files st !! path file = Some original →
  copy_outcome lib (path file) (backup_path_of timestamp (path file)) original
  = Written →
  (∀ line, console lib (path file) line = None) →
  read_csv lib (skip_rows file) original = Ret df →
  get_column (column file) df = Ret cells →
  0 < unmapped_count (mapping file) cells →
  process_file lib timestamp file st
  = (Ret (Unmapped (unmapped_count (mapping file) cells)),
     set_files (<[backup_path_of timestamp (path file) := original]> (files st))
       (logged [EvCopy (path file) (backup_path_of timestamp (path file))] st)).
Proof.
  intros Horig Hcopy Hquiet Hread Hcol Hpos.
  pose proof (backup_path_fresh timestamp (path file)) as Hfresh.
  unfold process_file, try_except, try_body.
  rewrite !(print_quiet _ _ Hquiet). unfold bind at 1.
  rewrite (copy2_spec _ _ _ _ _ Horig Hcopy).
  unfold read_file, bind, lift, ret. cbn [files].
  rewrite lookup_insert_ne by done. rewrite Horig, Hread, Hcol.
  fold (unmapped_count (mapping file) cells).
  apply Nat.ltb_lt in Hpos. rewrite Hpos. reflexivity.
Qed.

Lemma process_file_updated (file : file_info) st original df cells vdf vcells :
  files st !! path file = Some original →
  copy_outcome lib (path file) (backup_path_of timestamp (path file)) original
  = Written →
  (∀ line, console lib (path file) line = None) →
  read_csv lib (skip_rows file) original = Ret df →
  get_column (column file) df = Ret cells →
  unmapped_count (mapping file) cells = 0 →
  Py.replace (".backup_" +:+ timestamp) "" (path file) = path file →
  rewrite_outcome lib (path file) (rewritten_text lib file original df cells)
  = Written →
  read_csv lib (skip_rows file) (rewritten_text lib file original df cells)
  = Ret vdf →
  get_column (column file) vdf = Ret vcells →
  process_file lib timestamp file st
  = (Ret Updated,
     set_files
       (<[path file := rewritten_text lib file original df cells]>
          (<[backup_path_of timestamp (path file) := original]> (files st)))
       (logged [EvCopy (path file) (backup_path_of timestamp (path file));
                EvRewrite (path file)] st)).
Proof.
  intros Horig Hcopy Hquiet Hread Hcol Hzero Hsame Hwrite Hverify Hvcol.
  pose proof (backup_path_fresh timestamp (path file)) as Hfresh.
  unfold process_file, try_except, try_body.
  rewrite !(print_quiet _ _ Hquiet). unfold bind at 1.
  rewrite (copy2_spec _ _ _ _ _ Horig Hcopy).
  unfold read_file at 1, bind, lift, ret. cbn [files].
  rewrite lookup_insert_ne by done. rewrite Horig, Hread, Hcol.
  fold (unmapped_count (mapping file) cells). rewrite Hzero.
  cbn [Nat.ltb Nat.leb]. unfold rewritten_text in *.
  destruct (skip_rows file) as [|k] eqn:Hskip.
  - unfold write_text, read_file, bind, emit, set_files.
    cbn [files trace summary stdin].
    rewrite Hwrite. cbn [files]. rewrite lookup_insert_eq, Hverify, Hvcol.
    unfold logged. cbn. by rewrite <- app_assoc.
  - rewrite Hsame. unfold write_text, read_text, read_file, bind, emit, ret,
      set_files.
    cbn [files trace summary stdin].
    rewrite lookup_insert_ne by done. rewrite Horig.
    rewrite Hwrite. cbn [files]. rewrite lookup_insert_eq, Hverify, Hvcol.
    unfold logged. cbn. by rewrite <- app_assoc.
Qed.

Lemma mapped_cells_labelled (m : list (string * string)) (cells : list Py.value) :
  unmapped_count m cells = 0 →
  Forall (λ v, ∃ t, v = Str t ∧ t ∈ m.*2) (map_cell m <$> cells).
Proof.
  unfold unmapped_count. induction cells as [|v cells IH]; [constructor|].
  cbn [fmap list_fmap]. rewrite filter_cons.
  assert (Hget : ∀ s t, assoc_get s m = Some t → t ∈ m.*2).
  { clear. intros s t. induction m as [|[k x] m IH]; [done|].
    cbn [assoc_get fmap list_fmap snd]. destruct (decide (k = s)).
    - intros [= ->]. apply list_elem_of_here.
    - intros H. right. by apply IH. }
  destruct v as [z|s|]; cbn [map_cell isna].
  - rewrite decide_True by done. discriminate.
  - destruct (assoc_get s m) as [t|] eqn:Hs; cbn [isna].
    + rewrite decide_False by done. intros Hrest. constructor; eauto.
    + rewrite decide_True by done. discriminate.
  - rewrite decide_True by done. discriminate.
Qed.

(** The handling of a file raises only out of the handler: from its
    first [print], from its copy, or from its last [print]. *)
Lemma process_file_raises (file : file_info) st e st1 :
  process_file lib timestamp file st = (Raise e, st1) →
  console lib (path file) 174 = Some e
  ∨ console lib (path file) 178 = Some e
  ∨ ∃ text debris,
      copy_outcome lib (backup_path_of timestamp (path file)) (path file) text
      = WriteFailed e debris.
Proof.
  unfold process_file, try_except.
  destruct (try_body lib timestamp file st) as [ [v|e0] st0]; [done|].
  unfold print.
  destruct (console lib (path file) 174) as [e1|] eqn:Hfirst.
  { unfold bind, raise. intros [= <- <-]. by left. }
  rewrite bind_ret_tt. unfold bind at 1, path_exists at 1.
  destruct (files st0 !! backup_path_of timestamp (path file))
    as [text|] eqn:Hbackup.
  - rewrite bool_decide_eq_true_2 by eauto.
    unfold copy2, bind, emit, ret, raise, set_files.
    cbn [files trace summary stdin]. rewrite Hbackup.
    destruct (copy_outcome lib _ _ text) as [|e' [junk|] ] eqn:Hcopy.
    + destruct (console lib (path file) 178) as [e2|] eqn:Hlast; [|done].
      intros [= <- <-]. right. by left.
    + intros [= <- <-]. right. right. eauto.
    + intros [= <- <-]. right. right. eauto.
  - rewrite bool_decide_eq_false_2 by (by intros [? ?]). done.
Qed.

End StandardizeExtras.

(** ** Lines *)

Lemma string_app_nil_r (s : string) : s +:+ "" = s.
Proof.
  induction s as [|c s IH]; [done|].
  change (String c s +:+ "") with (String c (s +:+ "")). by rewrite IH.
Qed.

Lemma lines_from_plain (cur l rest : string) :
  plain_line l = true →
  Standardize.lines_from cur (l +:+ String "010" rest)
  = (cur +:+ l +:+ String "010" "") :: Standardize.lines_from "" rest.
Proof.
  revert cur. induction l as [|c l IH]; intros cur Hl.
  - change ("" +:+ String "010" rest) with (String "010"%char rest).
    cbn [Standardize.lines_from]. by rewrite decide_True.
  - cbn [plain_line] in Hl. apply andb_true_iff in Hl as [Hc Hl].
    change (String c l +:+ String "010" rest)
      with (String c (l +:+ String "010" rest)).
    cbn [Standardize.lines_from].
    destruct (decide (c = "010"%char)); [done|].
    rewrite IH by done. f_equal. rewrite string_app_assoc. done.
Qed.

Lemma plain_line_rev_app (s acc : string) :
  plain_line s = true → plain_line acc = true →
  plain_line (String.rev_app s acc) = true.
Proof.
  revert acc. induction s as [|c s IH]; intros acc Hs Hacc; [done|].
  cbn [plain_line] in Hs. apply andb_true_iff in Hs as [Hc Hs].
  cbn [String.rev_app]. apply IH; [done|]. cbn [plain_line]. by rewrite Hc.
Qed.

Lemma lstrip_newlines_plain (s : string) :
  plain_line s = true → Standardize.lstrip_newlines s = s.
Proof.
  destruct s as [|c s]; [done|]. cbn [plain_line Standardize.lstrip_newlines].
  intros [Hc _]%andb_true_iff. by destruct (decide (c = "010"%char)).
Qed.

(** A line read with its line end, stripped of it, is the line. *)
Lemma rstrip_newlines_line (l : string) :
  plain_line l = true →
  Standardize.rstrip_newlines (l +:+ String "010" "") = l.
Proof.
  intros Hl. unfold Standardize.rstrip_newlines. rewrite rev_snoc.
  cbn [Standardize.lstrip_newlines]. rewrite decide_True by done.
  rewrite lstrip_newlines_plain; [apply rev_involutive|].
  by apply plain_line_rev_app.
Qed.

Lemma lines_of_block (ls : list string) (rest : string) :
  Forall (λ l, plain_line l = true) ls →
  Standardize.lines (Standardize.concat_lines ls +:+ rest)
  = ((λ l, l +:+ String "010" "") <$> ls) ++ Standardize.lines rest.
Proof.
  unfold Standardize.lines. induction 1 as [|l ls Hl _ IH]; [done|].
  cbn [Standardize.concat_lines fmap list_fmap app].
  rewrite !string_app_assoc.
  change (String "010" "" +:+ Standardize.concat_lines ls +:+ rest)
    with (String "010"%char (Standardize.concat_lines ls +:+ rest)).
  rewrite lines_from_plain by done. by rewrite IH.
Qed.

Lemma comment_block_kept (ls : list string) (rest : string) :
  Forall (λ l, plain_line l = true) ls →
  Standardize.concat_lines
    (Standardize.rstrip_newlines
       <$> take (length ls)
             (Standardize.lines (Standardize.concat_lines ls +:+ rest)))
  = Standardize.concat_lines ls.
Proof.
  intros Hls. rewrite lines_of_block by done.
  rewrite take_app_length' by by rewrite length_fmap.
  f_equal. rewrite <- list_fmap_compose.
  induction Hls as [|l ls Hl _ IH]; [done|].
  cbn [fmap list_fmap compose]. rewrite rstrip_newlines_line by done.
  by rewrite IH.
Qed.

(** The translation of line ends leaves a line without carriage return
    as it is. *)
Lemma universal_newlines_plain (l rest : string) :
  plain_line l = true →
  Py.universal_newlines (l +:+ String "010" rest)
  = l +:+ String "010" (Py.universal_newlines rest).
Proof.
  induction l as [|c l IH]; intros Hl.
  - change ("" +:+ String "010" rest) with (String "010"%char rest).
    cbn [Py.universal_newlines]. by rewrite decide_False.
  - cbn [plain_line] in Hl. apply andb_true_iff in Hl as [Hc Hl].
    change (String c l +:+ String "010" rest)
      with (String c (l +:+ String "010" rest)).
    cbn [Py.universal_newlines].
    destruct (decide (c = "013"%char)) as [->|Hcr]; [done|].
    by rewrite IH.
Qed.

Lemma universal_newlines_block (ls : list string) (rest : string) :
  Forall (λ l, plain_line l = true) ls →
  Py.universal_newlines (Standardize.concat_lines ls +:+ rest)
  = Standardize.concat_lines ls +:+ Py.universal_newlines rest.
Proof.
  induction 1 as [|l ls Hl _ IH]; [done|].
  cbn [Standardize.concat_lines]. rewrite !string_app_assoc.
  change (String "010" "" +:+ Standardize.concat_lines ls +:+ rest)
    with (String "010"%char (Standardize.concat_lines ls +:+ rest)).
  rewrite universal_newlines_plain by done. by rewrite IH.
Qed.

(** ** The extras of the standardisation script *)

(** X12. Handling a file touches that file and its backup only: every
    other path keeps its content, whatever the table library and the disk
    do, and the summary file and standard input are left alone. *)
Theorem X12_process_file_touches_two_paths
    (lib : Standardize.Tables) (timestamp : string)
    (file : Standardize.file_info) (st : state) (p : string) :
  p ≠ Standardize.path file →
  p ≠ Standardize.backup_path_of timestamp (Standardize.path file) →
  let st' := (Standardize.process_file lib timestamp file st).2 in
  files st' !! p = files st !! p
  ∧ summary st' = summary st
  ∧ stdin st' = stdin st.
Proof. apply process_file_frame. Qed.

Lemma X12_process_file_touches_two_paths_witness :
  let st := {| files := {[ "classroom-data/KOI-Classroom-Data.csv"
                           := "koi_disposition,CONFIRMED";
                           "K2 Selected Data.csv" := "disposition,REFUTED" ]};
               summary := None; stdin := []; trace := [] |} in
  let st' := (Standardize.process_file full_disk "20250101_120000"
                classroom_file st).2 in
  files st' !! "K2 Selected Data.csv" = Some "disposition,REFUTED"
  ∧ summary st' = None
  ∧ stdin st' = [].
Proof.
  intros st.
  refine (X12_process_file_touches_two_paths full_disk "20250101_120000"
            classroom_file st "K2 Selected Data.csv" _ _);
    by vm_compute.
Defined.

(** X13. Once the backup copy has gone through, and with a console that
    takes every line, when the mapping leaves some cell of the label
    column without a label (a value that is no key of the mapping, or a
    missing value), the file is not rewritten: the only thing done to the
    disk is the backup copy, the file keeps its content, and the verdict
    counts the cells left unmapped. *)
Theorem X13_unmapped_values_stop_the_rewrite
    (lib : Standardize.Tables) (timestamp : string)
    (file : Standardize.file_info) (st : state) (original : string)
    (df : DataFrame) (cells : list Py.value) :
  files st !! Standardize.path file = Some original →
  Standardize.copy_outcome lib (Standardize.path file)
    (Standardize.backup_path_of timestamp (Standardize.path file)) original
  = Written →
  (∀ line, Standardize.console lib (Standardize.path file) line = None) →
  Standardize.read_csv lib (Standardize.skip_rows file) original = Ret df →
  get_column (Standardize.column file) df = Ret cells →
  0 < unmapped_count (Standardize.mapping file) cells →
  let backup := Standardize.backup_path_of timestamp (Standardize.path file) in
  ∃ st',
    Standardize.process_file lib timestamp file st
    = (Ret (Standardize.Unmapped
              (unmapped_count (Standardize.mapping file) cells)), st')
    ∧ trace st' = trace st ++ [EvCopy (Standardize.path file) backup]
    ∧ files st' = <[backup := original]> (files st)
    ∧ files st' !! Standardize.path file = Some original.
Proof.
  intros Horig Hcopy Hquiet Hread Hcol Hpos backup. eexists. split.
  { by eapply process_file_unmapped. }
  cbn [set_files logged files trace]. split; [done|]. split; [done|].
  rewrite lookup_insert_ne; [done|]. apply backup_path_fresh.
Qed.

Lemma X13_unmapped_values_stop_the_rewrite_witness :
  let table := {| nrows := 2;
                  columns := [("koi_disposition",
                               [Str "CONFIRMED"; Str "REFUTED"])] |} in
  let lib := {| Standardize.read_csv := λ _ _, Ret table;
                Standardize.render_csv := λ _, "";
                Standardize.rewrite_outcome := λ _ _, Written;
                Standardize.copy_outcome := λ _ _ _, Written;
                Standardize.console := λ _ _, None |} in
  let st := {| files := {[ "classroom-data/KOI-Classroom-Data.csv"
                           := "koi_disposition,CONFIRMED,REFUTED" ]};
               summary := None; stdin := []; trace := [] |} in
  ∃ st',
    Standardize.process_file lib "20250101_120000" classroom_file st
    = (Ret (Standardize.Unmapped 1), st')
    ∧ files st' !! "classroom-data/KOI-Classroom-Data.csv"
      = Some "koi_disposition,CONFIRMED,REFUTED".
Proof.
  intros table lib st.
  destruct (X13_unmapped_values_stop_the_rewrite lib "20250101_120000"
              classroom_file st "koi_disposition,CONFIRMED,REFUTED" table
              [Str "CONFIRMED"; Str "REFUTED"])
    as (st' & Hrun & _ & _ & Hfile); try reflexivity.
  { vm_compute. lia. }
  exists st'. split; [exact Hrun|exact Hfile].
Defined.

Lemma listed_mapping_labels (base_dir : string) (file : Standardize.file_info)
    (v : Py.value) :
  file ∈ Standardize.files_to_process base_dir →
  (standard_label (Standardize.map_cell (Standardize.mapping file) v)
   ∨ Standardize.map_cell (Standardize.mapping file) v = NaN)
  ∧ (standard_label v
     → Standardize.map_cell (Standardize.mapping file) v = NaN).
Proof.
  unfold Standardize.files_to_process. intros Hin.
  assert (Hm : Standardize.mapping file = Standardize.koi_mapping
               ∨ Standardize.mapping file = Standardize.k2_mapping
               ∨ Standardize.mapping file = Standardize.tess_mapping).
  { repeat (apply elem_of_cons in Hin as [->|Hin]; [by auto|]).
    by apply elem_of_nil in Hin. }
  assert (Hget : ∀ (m : list (string * string)) s t,
            assoc_get s m = Some t → t ∈ m.*2).
  { clear. intros m s t. induction m as [|[k x] m IH]; [done|].
    cbn [assoc_get fmap list_fmap snd]. destruct (decide (k = s)).
    - intros [= ->]. apply list_elem_of_here.
    - intros H. right. by apply IH. }
  split.
  - destruct v as [z|s|]; cbn [Standardize.map_cell]; auto.
    destruct (assoc_get s (Standardize.mapping file)) as [t|] eqn:Hs; auto.
    left. apply Hget in Hs. unfold standard_label.
    destruct Hm as [Hm | [Hm | Hm] ]; rewrite Hm in Hs; cbn in Hs;
      repeat (apply elem_of_cons in Hs as [->|Hs]; [by auto|]);
      by apply elem_of_nil in Hs.
  - intros [-> | ->]; destruct Hm as [Hm | [Hm | Hm] ]; rewrite Hm;
      reflexivity.
Qed.

(** X14. For each of the five listed files, the mapping sends a cell to
    "candidate", to "non-candidate" or to the missing value, and sends
    these two labels themselves to the missing value. So a run over a
    file whose label column is already standardised rewrites nothing:
    once the backup copy has gone through, and with a console that takes
    every line, it counts every cell as unmapped and leaves the file as
    it is. *)
Theorem X14_standardised_file_is_left_alone
    (lib : Standardize.Tables) (timestamp base_dir : string)
    (file : Standardize.file_info) (st : state) (original : string)
    (df : DataFrame) (cells : list Py.value) :
  file ∈ Standardize.files_to_process base_dir →
  files st !! Standardize.path file = Some original →
  Standardize.copy_outcome lib (Standardize.path file)
    (Standardize.backup_path_of timestamp (Standardize.path file)) original
  = Written →
  (∀ line, Standardize.console lib (Standardize.path file) line = None) →
  Standardize.read_csv lib (Standardize.skip_rows file) original = Ret df →
  get_column (Standardize.column file) df = Ret cells →
  cells ≠ [] →
  Forall standard_label cells →
  (∀ v, standard_label (Standardize.map_cell (Standardize.mapping file) v)
        ∨ Standardize.map_cell (Standardize.mapping file) v = NaN)
  ∧ ∃ st',
      Standardize.process_file lib timestamp file st
      = (Ret (Standardize.Unmapped (length cells)), st')
      ∧ files st' !! Standardize.path file = Some original
      ∧ trace st'
        = trace st
          ++ [EvCopy (Standardize.path file)
                (Standardize.backup_path_of timestamp (Standardize.path file))].
Proof.
  intros Hin Horig Hcopy Hquiet Hread Hcol Hne Hstd. split.
  { intros v. by destruct (listed_mapping_labels base_dir file v Hin). }
  assert (Hcount : unmapped_count (Standardize.mapping file) cells
                   = length cells).
  { unfold unmapped_count. clear Hne Hcol.
    induction Hstd as [|v cells Hv _ IH]; [done|].
    cbn [fmap list_fmap length].
    destruct (listed_mapping_labels base_dir file v Hin) as [_ Hnan].
    rewrite (Hnan Hv), filter_cons_True by done.
    cbn [length]. by rewrite IH. }
  eexists. split.
  { rewrite <- Hcount. eapply process_file_unmapped; eauto.
    rewrite Hcount. destruct cells; [done|]. cbn [length]. lia. }
  cbn [set_files logged files trace]. split; [|done].
  rewrite lookup_insert_ne; [done|]. apply backup_path_fresh.
Qed.

Lemma X14_standardised_file_is_left_alone_witness :
  let table := {| nrows := 2;
                  columns := [("tfopwg_disp",
                               [Str "candidate"; Str "non-candidate"])] |} in
  let lib := {| Standardize.read_csv := λ _ _, Ret table;
                Standardize.render_csv := λ _, "";
                Standardize.rewrite_outcome := λ _ _, Written;
                Standardize.copy_outcome := λ _ _ _, Written;
                Standardize.console := λ _ _, None |} in
  let st := {| files := {[ "data/classroom-data/TESS-Classroom-Data.csv"
                           := "tfopwg_disp,candidate,non-candidate" ]};
               summary := None; stdin := []; trace := [] |} in
  let file := {| Standardize.path :=
                   "data/classroom-data/TESS-Classroom-Data.csv";
                 Standardize.name := "TESS Classroom Data";
                 Standardize.column := "tfopwg_disp";
                 Standardize.skip_rows := 0;
                 Standardize.mapping := Standardize.tess_mapping |} in
  ∃ st',
    Standardize.process_file lib "20250101_120000" file st
    = (Ret (Standardize.Unmapped 2), st')
    ∧ files st' !! "data/classroom-data/TESS-Classroom-Data.csv"
      = Some "tfopwg_disp,candidate,non-candidate".
Proof.
  intros table lib st file.
  destruct (X14_standardised_file_is_left_alone lib "20250101_120000" "data"
              file st "tfopwg_disp,candidate,non-candidate" table
              [Str "candidate"; Str "non-candidate"])
    as (_ & st' & Hrun & Hfile & _).
  - do 4 apply list_elem_of_further. apply list_elem_of_here.
  - reflexivity.
  - reflexivity.
  - reflexivity.
  - reflexivity.
  - reflexivity.
  - discriminate.
  - constructor; [by left|]. constructor; [by right|]. constructor.
  - exists st'. split; [exact Hrun|exact Hfile].
Defined.

(** X15. When the backup copy goes through, the console takes every
    line, every cell of the label column is a key of the mapping, and the
    read, the rewrite and the read-back all go through, the file ends up
    holding the rewritten text
    (the comment lines as a text-mode read yields them, if rows are
    skipped, then the table with its label column mapped), every cell of
    that column is one of the mapping's target labels, and the backup
    holds the original content. Exactly two things were done: the backup
    copy, then one rewrite. *)
Theorem X15_update_writes_the_mapped_table
    (lib : Standardize.Tables) (timestamp : string)
    (file : Standardize.file_info) (st : state) (original : string)
    (df vdf : DataFrame) (cells vcells : list Py.value) :
  let backup := Standardize.backup_path_of timestamp (Standardize.path file) in
  files st !! Standardize.path file = Some original →
  Standardize.copy_outcome lib (Standardize.path file) backup original
  = Written →
  (∀ line, Standardize.console lib (Standardize.path file) line = None) →
  Standardize.read_csv lib (Standardize.skip_rows file) original = Ret df →
  get_column (Standardize.column file) df = Ret cells →
  unmapped_count (Standardize.mapping file) cells = 0 →
  Py.replace (".backup_" +:+ timestamp) "" (Standardize.path file)
  = Standardize.path file →
  Standardize.rewrite_outcome lib (Standardize.path file)
    (rewritten_text lib file original df cells) = Written →
  Standardize.read_csv lib (Standardize.skip_rows file)
    (rewritten_text lib file original df cells) = Ret vdf →
  get_column (Standardize.column file) vdf = Ret vcells →
  ∃ st',
    Standardize.process_file lib timestamp file st
    = (Ret Standardize.Updated, st')
    ∧ files st' !! Standardize.path file
      = Some (rewritten_text lib file original df cells)
    ∧ files st' !! backup = Some original
    ∧ trace st' = trace st ++ [EvCopy (Standardize.path file) backup;
                               EvRewrite (Standardize.path file)]
    ∧ Forall (λ v, ∃ t, v = Str t ∧ t ∈ (Standardize.mapping file).*2)
        (Standardize.map_cell (Standardize.mapping file) <$> cells).
Proof.
  intros backup Horig Hcopy Hquiet Hread Hcol Hzero Hsame Hwrite Hverify Hvcol.
  eexists. split.
  { by eapply process_file_updated. }
  cbn [set_files logged files trace].
  split; [apply lookup_insert_eq|]. split.
  { rewrite lookup_insert_ne by apply not_eq_sym, backup_path_fresh.
    apply lookup_insert_eq. }
  split; [done|]. by apply mapped_cells_labelled.
Qed.

Lemma X15_update_writes_the_mapped_table_witness :
  let file := {| Standardize.path := "KOI Selected Data.csv";
                 Standardize.name := "KOI Selected Data";
                 Standardize.column := "koi_disposition";
                 Standardize.skip_rows := 2;
                 Standardize.mapping := Standardize.koi_mapping |} in
  let table := {| nrows := 1;
                  columns := [("koi_disposition", [Str "CONFIRMED"])] |} in
  let lib := {| Standardize.read_csv := λ _ _, Ret table;
                Standardize.render_csv := λ _, "koi_disposition,candidate";
                Standardize.rewrite_outcome := λ _ _, Written;
                Standardize.copy_outcome := λ _ _ _, Written;
                Standardize.console := λ _ _, None |} in
  let original :=
    "# first" +:+ String "013" (String "010" "")
    +:+ "# second" +:+ String "013" (String "010" "")
    +:+ "koi_disposition,CONFIRMED" in
  let st := {| files := {[ "KOI Selected Data.csv" := original ]};
               summary := None; stdin := []; trace := [] |} in
  ∃ st',
    Standardize.process_file lib "20250101_120000" file st
    = (Ret Standardize.Updated, st')
    ∧ files st' !! "KOI Selected Data.csv"
      = Some ("# first" +:+ String "010" ""
              +:+ "# second" +:+ String "010" ""
              +:+ "koi_disposition,candidate")
    ∧ files st' !! "KOI Selected Data.csv.backup_20250101_120000"
      = Some original.
Proof.
  intros file table lib original st.
  destruct (X15_update_writes_the_mapped_table lib "20250101_120000"
              file st original table table
              [Str "CONFIRMED"] [Str "CONFIRMED"])
    as (st' & Hrun & Hfile & Hbackup & _); try reflexivity.
  exists st'. split; [exact Hrun|]. split; [exact Hfile|exact Hbackup].
Defined.

(** X16. Comment lines survive the rewrite byte for byte: when the
    original text opens with as many lines as there are rows to skip,
    each ended by a line feed and holding neither a line feed nor a
    carriage return, the rewritten text opens with these very lines,
    followed by the rendered table. *)
Theorem X16_comment_lines_are_kept
    (lib : Standardize.Tables) (file : Standardize.file_info)
    (ls : list string) (rest : string) (df : DataFrame)
    (cells : list Py.value) :
  Forall (λ l, plain_line l = true) ls →
  Standardize.skip_rows file = length ls →
  rewritten_text lib file (Standardize.concat_lines ls +:+ rest) df cells
  = Standardize.concat_lines ls
    +:+ Standardize.render_csv lib
          (set_column (Standardize.column file)
             (Standardize.map_cell (Standardize.mapping file) <$> cells) df).
Proof.
  intros Hls Hskip. unfold rewritten_text. rewrite Hskip.
  destruct ls as [|l ls]; [done|].
  change (match length (l :: ls) with S _ => ?a | O => _ end) with a.
  rewrite universal_newlines_block by done.
  by rewrite comment_block_kept.
Qed.

Lemma X16_comment_lines_are_kept_witness :
  let file := {| Standardize.path := "KOI Selected Data.csv";
                 Standardize.name := "KOI Selected Data";
                 Standardize.column := "koi_disposition";
                 Standardize.skip_rows := 2;
                 Standardize.mapping := Standardize.koi_mapping |} in
  rewritten_text sound_disk file
    (Standardize.concat_lines ["# first"; "# second"]
     +:+ "koi_disposition,CONFIRMED")
    {| nrows := 1; columns := [("koi_disposition", [Str "CONFIRMED"])] |}
    [Str "CONFIRMED"]
  = Standardize.concat_lines ["# first"; "# second"]
    +:+ "koi_disposition,candidate".
Proof.
  intros file.
  refine (X16_comment_lines_are_kept sound_disk file ["# first"; "# second"]
            "koi_disposition,CONFIRMED" _ _ _ _).
  - repeat constructor.
  - reflexivity.
Defined.

(** X17. A file whose handling ends in a verdict, be it a failure, does
    not stop the others: once the two lines that announce it are printed,
    the remaining files are handled from the store it left, and its
    verdict comes first in the list. The handling of a file raises only
    out of the handler, which runs outside any [try]: from its first
    [print], from its copy of the backup over the file, or from its last
    [print]. That exception leaves the loop, so that no later file is
    handled. *)
Theorem X17_one_file_does_not_stop_the_rest
    (lib : Standardize.Tables) (timestamp : string)
    (file : Standardize.file_info) (rest : list Standardize.file_info)
    (st : state) :
  is_Some (files st !! Standardize.path file) →
  Standardize.console lib (Standardize.path file) 101 = None →
  Standardize.console lib (Standardize.path file) 102 = None →
  let backup := Standardize.backup_path_of timestamp (Standardize.path file) in
  match Standardize.process_file lib timestamp file st with
  | (Ret v, st1) =>
      Standardize.process_all lib timestamp (file :: rest) st
      = match Standardize.process_all lib timestamp rest st1 with
        | (Ret vs, st') => (Ret ((Standardize.name file, v) :: vs), st')
        | (Raise e, st') => (Raise e, st')
        end
  | (Raise e, st1) =>
      Standardize.process_all lib timestamp (file :: rest) st = (Raise e, st1)
      ∧ (Standardize.console lib (Standardize.path file) 174 = Some e
         ∨ Standardize.console lib (Standardize.path file) 178 = Some e
         ∨ ∃ text debris,
             Standardize.copy_outcome lib backup (Standardize.path file) text
             = WriteFailed e debris)
  end.
Proof.
  intros Hfile Hprint1 Hprint2 backup.
  assert (Hloop :
    Standardize.process_all lib timestamp (file :: rest) st
    = match Standardize.process_file lib timestamp file st with
      | (Ret v, st1) =>
          match Standardize.process_all lib timestamp rest st1 with
          | (Ret vs, st') => (Ret ((Standardize.name file, v) :: vs), st')
          | (Raise e, st') => (Raise e, st')
          end
      | (Raise e, st1) => (Raise e, st1)
      end).
  { cbn [Standardize.process_all]. unfold bind at 1, path_exists at 1.
    rewrite bool_decide_eq_true_2 by done.
    unfold Standardize.print. rewrite Hprint1, Hprint2. unfold bind, ret.
    destruct (Standardize.process_file lib timestamp file st)
      as [ [v|e] st1]; [|done].
    by destruct (Standardize.process_all lib timestamp rest st1)
      as [ [vs|e] st']. }
  rewrite Hloop.
  destruct (Standardize.process_file lib timestamp file st)
    as [ [v|e] st1] eqn:Hrun; [done|].
  split; [done|]. exact (process_file_raises _ _ _ _ _ _ Hrun).
Qed.

Lemma X17_one_file_does_not_stop_the_rest_witness :
  let st := {| files := {[ "classroom-data/KOI-Classroom-Data.csv"
                           := "koi_disposition,CONFIRMED" ]};
               summary := None; stdin := []; trace := [] |} in
  (∃ vs st',
     Standardize.process_all full_disk "20250101_120000"
       [classroom_file; classroom_file] st
     = (Ret (("KOI Classroom Data", Standardize.Failed no_space) :: vs), st')
     ∧ length vs = 1)
  ∧ ∃ st',
      Standardize.process_all disk_full_at_restore "20250101_120000"
        [classroom_file; classroom_file] st
      = (Raise no_space, st')
      ∧ length (trace st') = 3.
Proof.
  intros st. split.
  - pose proof (X17_one_file_does_not_stop_the_rest full_disk
                  "20250101_120000" classroom_file [classroom_file] st) as H.
    destruct (Standardize.process_file full_disk "20250101_120000"
                classroom_file st) as [o st1] eqn:Hrun.
    assert (Ho : o = Ret (Standardize.Failed no_space)).
    { change o with (o, st1).1. rewrite <- Hrun. by vm_compute. }
    subst o.
    specialize (H ltac:(vm_compute; eauto) eq_refl eq_refl). cbn zeta in H.
    destruct (Standardize.process_all full_disk "20250101_120000"
                [classroom_file] st1) as [o' st'] eqn:Hrest.
    assert (Hlen : match o' with Ret l => length l | Raise _ => 0 end = 1).
    { change o' with (o', st').1. rewrite <- Hrest.
      change st1 with (Ret (Standardize.Failed no_space), st1).2.
      rewrite <- Hrun. by vm_compute. }
    destruct o' as [vs|e]; [|discriminate].
    exists vs, st'. split; [exact H|exact Hlen].
  - pose proof (X17_one_file_does_not_stop_the_rest disk_full_at_restore
                  "20250101_120000" classroom_file [classroom_file] st) as H.
    destruct (Standardize.process_file disk_full_at_restore "20250101_120000"
                classroom_file st) as [o st1] eqn:Hrun.
    assert (Ho : o = Raise no_space).
    { change o with (o, st1).1. rewrite <- Hrun. by vm_compute. }
    assert (Hlen : length (trace st1) = 3).
    { change st1 with (o, st1).2. rewrite <- Hrun. by vm_compute. }
    subst o.
    specialize (H ltac:(vm_compute; eauto) eq_refl eq_refl). cbn zeta in H.
    exists st1. split; [exact (proj1 H)|exact Hlen].
Defined.

(** * Properties of the table loader of the split script *)

Lemma header_line_index_from_comments (i : nat) (pre post : list string) :
  Forall (λ l, Playground.is_comment l = true) pre →
  Playground.header_line_index_from i (pre ++ post)
  = match post with
    | [] => 0
    | _ => Playground.header_line_index_from (i + length pre) post
    end.
Proof.
  intros Hpre. revert i. induction Hpre as [|l pre Hl _ IH]; intros i.
  - cbn [app length]. rewrite Nat.add_0_r. by destruct post.
  - cbn [app Playground.header_line_index_from length]. rewrite Hl, IH.
    destruct post; [done|]. f_equal. lia.
Qed.

(** X18. [load_koi_data] tells the reader to skip exactly the comment
    lines the file opens with: when the lines of the file, as a text-mode
    read yields them, are comment lines up to a first line that is no
    comment, the number of rows skipped is the number of comment lines
    before it. When every line is a comment the number is 0. A missing
    file raises [FileNotFoundError]. Otherwise the store is left as it
    is. *)
Theorem X18_loader_skips_the_leading_comments
    (rd : Playground.Reader) (file_path : string) (st : state) :
  match files st !! file_path with
  | Some content =>
      let lines := Standardize.lines (Py.universal_newlines content) in
      ∃ n,
        Playground.load_koi_data rd file_path st
        = (Playground.read_csv rd n content, st)
        ∧ (∀ pre line post,
             lines = pre ++ line :: post →
             Forall (λ l, Playground.is_comment l = true) pre →
             Playground.is_comment line = false →
             n = length pre)
        ∧ (Forall (λ l, Playground.is_comment l = true) lines → n = 0)
  | None =>
      Playground.load_koi_data rd file_path st
      = (Raise (Exception "FileNotFoundError"
                  ("[Errno 2] No such file or directory: "
                   +:+ Py.repr file_path)), st)
  end.
Proof.
  unfold Playground.load_koi_data, Playground.readlines,
    Standardize.read_text, Standardize.read_file, bind, ret, lift.
  destruct (files st !! file_path) as [content|] eqn:Hcontent;
    cbn beta iota; [|done].
  rewrite Hcontent.
  eexists. split; [reflexivity|]. unfold Playground.header_line_index. split.
  - intros pre line post -> Hpre Hline.
    rewrite header_line_index_from_comments by done.
    cbn [Playground.header_line_index_from]. by rewrite Hline.
  - intros Hall.
    rewrite <- (app_nil_r (Standardize.lines _)).
    by rewrite header_line_index_from_comments.
Qed.

Lemma X18_loader_skips_the_leading_comments_witness :
  let crlf := String "013" (String "010" "") in
  let content := "# KOI table" +:+ crlf +:+ "  # columns" +:+ crlf
                 +:+ "kepid,koi_disposition" +:+ crlf
                 +:+ "757450,CONFIRMED" +:+ crlf in
  let st := {| files := {[ "KOI Selected Data.csv" := content ]};
               summary := None; stdin := []; trace := [] |} in
  Playground.load_koi_data echo_reader "KOI Selected Data.csv" st
  = (Ret {| nrows := 1; columns := [("skipped", [Int 2])] |}, st)
  ∧ Playground.load_koi_data echo_reader "KOI's data.csv" st
    = (Raise (Exception "FileNotFoundError"
                ("[Errno 2] No such file or directory: "
                 +:+ String "034" ("KOI's data.csv" +:+ String "034" ""))),
       st).
Proof.
  intros crlf content st. split.
  - pose proof (X18_loader_skips_the_leading_comments echo_reader
                  "KOI Selected Data.csv" st) as H.
    change (files st !! "KOI Selected Data.csv") with (Some content) in H.
    destruct H as (n & Hrun & Hn & _). rewrite Hrun.
    rewrite (Hn [ "# KOI table" +:+ String "010" "";
                  "  # columns" +:+ String "010" "" ]
                ("kepid,koi_disposition" +:+ String "010" "")
                [ "757450,CONFIRMED" +:+ String "010" "" ]);
      reflexivity || (repeat constructor).
  - pose proof (X18_loader_skips_the_leading_comments echo_reader
                  "KOI's data.csv" st) as H.
    change (files st !! "KOI's data.csv") with (@None string) in H.
    exact H.
Defined.
